(** * A Telegram bot relaying chats, images and web searches: model of [main.py]

    The handlers of [main.py] talk to four outside parties: the MongoDB
    store, the Telegram transport, the generative-AI service and the
    search provider.  The model keeps the three MongoDB collections as
    lists of documents, records every call made to an outside party in a
    trace, and lets an environment [Env] decide what each outside party
    answers (a value, or a raised Python exception).  Handlers are written
    in a state-and-exception monad so that they read like the Python. *)

From Stdlib Require Import ZArith List String Ascii Bool Lia.
From Stdlib Require Import Strings.Byte.
Import ListNotations.

Open Scope string_scope.
Open Scope list_scope.

(* ------------------------------------------------------------------ *)
(** ** Python values and documents *)

(** The values that the handlers store in MongoDB documents or pass as
    request parameters. *)
Inductive PyVal : Type :=
| VNone
| VInt (n : Z)
| VStr (s : string)
| VDatetime (t : Z).

Definition PyVal_eqb (a b : PyVal) : bool :=
  match a, b with
  | VNone, VNone => true
  | VInt n, VInt m => Z.eqb n m
  | VStr s, VStr t => String.eqb s t
  | VDatetime s, VDatetime t => Z.eqb s t
  | _, _ => false
  end.

(** The kind of a value, as [type(v).__name__] would print it. *)
Inductive PyType : Type := TNone | TInt | TStr | TDatetime.

Definition type_of (v : PyVal) : PyType :=
  match v with
  | VNone => TNone
  | VInt _ => TInt
  | VStr _ => TStr
  | VDatetime _ => TDatetime
  end.

(** A Python [dict] with string keys, in insertion order. *)
Definition Doc : Type := list (string * PyVal).

Fixpoint doc_get (k : string) (d : Doc) : option PyVal :=
  match d with
  | [] => None
  | (k', v) :: d' => if String.eqb k k' then Some v else doc_get k d'
  end.

(** [d[k] = v]: overwrite in place, or add at the end. *)
Fixpoint doc_set (k : string) (v : PyVal) (d : Doc) : Doc :=
  match d with
  | [] => [(k, v)]
  | (k', v') :: d' =>
      if String.eqb k k' then (k', v) :: d' else (k', v') :: doc_set k v d'
  end.

Fixpoint Doc_eqb (a b : Doc) : bool :=
  match a, b with
  | [], [] => true
  | (k, v) :: a', (k', v') :: b' =>
      String.eqb k k' && PyVal_eqb v v' && Doc_eqb a' b'
  | _, _ => false
  end.

(** An equality filter [{k1: v1, ...}] of MongoDB: every listed field is
    present with that value (a [None] in the filter also matches a
    missing field). *)
Definition doc_matches (q d : Doc) : bool :=
  forallb (fun kv =>
             match doc_get (fst kv) d with
             | Some v => PyVal_eqb v (snd kv)
             | None => PyVal_eqb VNone (snd kv)
             end) q.

(** [{"$set": fields}] applied to a document. *)
Definition doc_apply_set (fields d : Doc) : Doc :=
  fold_left (fun acc kv => doc_set (fst kv) (snd kv) acc) fields d.

(** Truth value of what [find_one] returns: [None] and the empty dict are
    falsy. *)
Definition py_truthy_doc (r : option Doc) : bool :=
  match r with
  | None => false
  | Some [] => false
  | Some (_ :: _) => true
  end.

Definition LF : string := String (ascii_of_nat 10) EmptyString.

(** [str(x)] for an optional string, as an f-string prints it. *)
Definition py_str_opt (o : option string) : string :=
  match o with
  | Some s => s
  | None => "None"
  end.

Definition py_val_opt (o : option string) : PyVal :=
  match o with
  | Some s => VStr s
  | None => VNone
  end.

(** [sep.join(xs)] *)
Fixpoint join (sep : string) (xs : list string) : string :=
  match xs with
  | [] => ""
  | [x] => x
  | x :: rest => (x ++ sep ++ join sep rest)%string
  end.

(* ------------------------------------------------------------------ *)
(** ** Telegram, generative-AI and HTTP data *)

Record User : Type := {
  id : Z;
  first_name : string;
  username : option string
}.

Record Contact : Type := { phone_number : string }.

Record Document : Type := {
  document_file_id : string;
  document_file_name : option string
}.

Record PhotoSize : Type := { photo_file_id : string }.

Record Message : Type := {
  from_user : User;
  chat_id : Z;
  text : option string;
  contact : option Contact;
  document : option Document;
  photo : list PhotoSize
}.

(** Handlers are modelled on updates that carry a message. *)
Record Update : Type := { message : Message }.

(** [context.args]; [context.bot] is reached through the environment. *)
Record Context : Type := { args : list string }.

Record KeyboardButton : Type := {
  button_text : string;
  request_contact : bool
}.

Inductive ReplyMarkup : Type :=
| ReplyKeyboardMarkup (keyboard : list (list KeyboardButton))
                      (one_time_keyboard resize_keyboard : bool)
| ReplyKeyboardRemove.

Record File : Type := { file_path : option string }.

(** A PIL image: [Image.open] identifies the stream and keeps it. *)
Inductive Image : Type := ImageOf (raw : list byte).

Inductive HarmCategory : Type :=
| HARM_CATEGORY_DANGEROUS_CONTENT
| HARM_CATEGORY_HARASSMENT
| HARM_CATEGORY_SEXUALLY_EXPLICIT
| HARM_CATEGORY_HATE_SPEECH.

Inductive HarmBlockThreshold : Type :=
| BLOCK_LOW_AND_ABOVE
| BLOCK_MEDIUM_AND_ABOVE
| BLOCK_ONLY_HIGH
| BLOCK_NONE.

Definition SAFETY_SETTINGS : list (HarmCategory * HarmBlockThreshold) :=
  [ (HARM_CATEGORY_DANGEROUS_CONTENT, BLOCK_NONE);
    (HARM_CATEGORY_HARASSMENT, BLOCK_NONE);
    (HARM_CATEGORY_SEXUALLY_EXPLICIT, BLOCK_NONE);
    (HARM_CATEGORY_HATE_SPEECH, BLOCK_NONE) ].

Record GenerativeModel : Type := {
  model_name : string;
  safety_settings : list (HarmCategory * HarmBlockThreshold)
}.

Record ChatSession : Type := {
  chat_model : GenerativeModel;
  history : list string
}.

Definition start_chat (m : GenerativeModel) (h : list string) : ChatSession :=
  {| chat_model := m; history := h |}.

(** What the model sent back; [response.text] needs a text part. *)
Record GenerateContentResponse : Type := { text_part : option string }.

(** One entry of [organic_results]; the provider's [snippet] and [link]
    are strings, [None] stands for a missing key. *)
Record OrganicResult : Type := {
  snippet : option string;
  link : option string
}.

(** A Python exception, with the message [str(e)] prints. *)
Inductive PyExn : Type := Exception (msg : string).

Definition exn_str (e : PyExn) : string :=
  match e with Exception m => m end.

Inductive Outcome (A : Type) : Type :=
| Ok (a : A)
| Raise (e : PyExn).
Arguments Ok {A} a.
Arguments Raise {A} e.

(** A [requests] response: the status code and what [response.json()]
    gives, of which only the [organic_results] key is read ([None] when
    the key is missing). *)
Record Response : Type := {
  status_code : Z;
  json : Outcome (option (list OrganicResult))
}.

(* ------------------------------------------------------------------ *)
(** ** The world: collections and the trace of outside calls *)

Inductive CollName : Type :=
| collection
| chat_history_collection
| file_metadata_collection.

Definition CollName_eqb (a b : CollName) : bool :=
  match a, b with
  | collection, collection => true
  | chat_history_collection, chat_history_collection => true
  | file_metadata_collection, file_metadata_collection => true
  | _, _ => false
  end.

Inductive Level : Type := INFO | ERROR.

Inductive Event : Type :=
| DbFindOne (c : CollName) (q : Doc)
| DbInsertOne (c : CollName) (d : Doc)
| DbUpdateOne (c : CollName) (q fields : Doc)
| ReplyText (body : string) (markup : option ReplyMarkup)
| HttpGet (url : string) (params : Doc)
| SendMessage (chat : ChatSession) (content : option string)
| GenerateContent (m : GenerativeModel) (prompt : string) (img : Image)
| GetFile (file_id : string)
| DownloadAsBytearray (f : File)
| LogRecord (lvl : Level) (msg : string).

Record World : Type := {
  db : CollName -> list Doc;
  trace : list Event
}.

(** What the outside parties answer.  The [nat] is the number of outside
    calls made so far, so an answer may change from call to call. *)
Record Env : Type := {
  environ : string -> option string;
  datetime_now : nat -> Z;
  mongo_fault : nat -> option PyExn;
  telegram_fault : nat -> option PyExn;
  send_message_answer :
    nat -> ChatSession -> option string -> Outcome GenerateContentResponse;
  generate_content_answer :
    nat -> GenerativeModel -> string -> Image -> Outcome GenerateContentResponse;
  get_file_answer : nat -> string -> Outcome File;
  download_answer : nat -> File -> Outcome (list byte);
  image_open : list byte -> Outcome Image;
  requests_get_answer : nat -> string -> Doc -> Outcome Response
}.

(* ------------------------------------------------------------------ *)
(** ** The monad of handlers *)

Definition M (A : Type) : Type := World -> Outcome A * World.

Definition ret {A : Type} (a : A) : M A := fun w => (Ok a, w).

Definition raise {A : Type} (e : PyExn) : M A := fun w => (Raise e, w).

Definition bind {A B : Type} (m : M A) (k : A -> M B) : M B :=
  fun w =>
    match m w with
    | (Ok a, w1) => k a w1
    | (Raise e, w1) => (Raise e, w1)
    end.

(** [try: body / except Exception as e: handler e] *)
Definition try_except {A : Type} (body : M A) (handler : PyExn -> M A) : M A :=
  fun w =>
    match body w with
    | (Ok a, w1) => (Ok a, w1)
    | (Raise e, w1) => handler e w1
    end.

Definition lift {A : Type} (o : Outcome A) : M A := fun w => (o, w).

Declare Scope py_scope.
Delimit Scope py_scope with py.
Notation "x <- m ;; k" := (bind m (fun x => k))
  (at level 61, m at next level, right associativity) : py_scope.
Notation "m ;; k" := (bind m (fun _ => k))
  (at level 61, right associativity) : py_scope.
Open Scope py_scope.

Definition outcome {A : Type} (m : M A) (w : World) : Outcome A := fst (m w).
Definition exec {A : Type} (m : M A) (w : World) : World := snd (m w).

(** The events a run added to the trace. *)
Definition emitted (w w' : World) : list Event :=
  skipn (List.length (trace w)) (trace w').

Definition emit (ev : Event) (w : World) : World :=
  {| db := db w; trace := trace w ++ [ev] |}.

Definition set_coll (c : CollName) (docs : list Doc) (w : World) : World :=
  {| db := fun c' => if CollName_eqb c' c then docs else db w c';
     trace := trace w |}.

Definition clock (w : World) : nat := List.length (trace w).

(** Replace the first element that satisfies [p]. *)
Fixpoint update_first {A : Type} (p : A -> bool) (f : A -> A) (l : list A)
  : list A :=
  match l with
  | [] => []
  | x :: l' => if p x then f x :: l' else x :: update_first p f l'
  end.

Record UpdateResult : Type := {
  matched_count : nat;
  modified_count : nat
}.

Section Handlers.

Variable env : Env.

(** *** MongoDB *)

Definition find_one (c : CollName) (q : Doc) : M (option Doc) :=
  fun w =>
    let w1 := emit (DbFindOne c q) w in
    match mongo_fault env (clock w) with
    | Some e => (Raise e, w1)
    | None => (Ok (find (doc_matches q) (db w c)), w1)
    end.

(** The server's own [_id] field is left out of the stored document. *)
Definition insert_one (c : CollName) (d : Doc) : M unit :=
  fun w =>
    let w1 := emit (DbInsertOne c d) w in
    match mongo_fault env (clock w) with
    | Some e => (Raise e, w1)
    | None => (Ok tt, set_coll c (db w c ++ [d]) w1)
    end.

Definition update_one (c : CollName) (q fields : Doc) : M UpdateResult :=
  fun w =>
    let w1 := emit (DbUpdateOne c q fields) w in
    match mongo_fault env (clock w) with
    | Some e => (Raise e, w1)
    | None =>
        match find (doc_matches q) (db w c) with
        | None => (Ok {| matched_count := 0; modified_count := 0 |}, w1)
        | Some d =>
            let docs := update_first (doc_matches q) (doc_apply_set fields)
                                     (db w c) in
            (Ok {| matched_count := 1;
                   modified_count :=
                     if Doc_eqb (doc_apply_set fields d) d
                     then 0 else 1 |},
             set_coll c docs w1)
        end
    end.

(** *** Logging, clock and process environment *)

Definition logger_info (msg : string) : M unit :=
  fun w => (Ok tt, emit (LogRecord INFO msg) w).

Definition logger_error (msg : string) : M unit :=
  fun w => (Ok tt, emit (LogRecord ERROR msg) w).

Definition now : M Z := fun w => (Ok (datetime_now env (clock w)), w).

(** *** Telegram *)

Definition reply_text (body : string) (markup : option ReplyMarkup) : M unit :=
  fun w =>
    let w1 := emit (ReplyText body markup) w in
    match telegram_fault env (clock w) with
    | Some e => (Raise e, w1)
    | None => (Ok tt, w1)
    end.

(** *** [register_user] *)

Definition register_user (user_id : Z) (first_name : string)
           (username : option string) : M unit :=
  found <- find_one collection [("chat_id", VInt user_id)] ;;
  if negb (py_truthy_doc found) then
    let user_data :=
      [ ("chat_id", VInt user_id);
        ("first_name", VStr first_name);
        ("username", py_val_opt username);
        ("phone_number", VNone) ] in
    insert_one collection user_data ;;
    logger_info ("Registered new user: " ++ first_name
                 ++ " (@" ++ py_str_opt username ++ ")")%string
  else ret tt.

(** *** [start], [handle_contact], [cancel] *)

Definition start (update : Update) (context : Context) : M Z :=
  let user := from_user (message update) in
  register_user (id user) (first_name user) (username user) ;;
  let phone_button :=
    {| button_text := "Share my phone number"; request_contact := true |} in
  let reply_markup := ReplyKeyboardMarkup [[phone_button]] true true in
  reply_text
    "Welcome to the User Registration Bot! Please share your phone number to continue."
    (Some reply_markup) ;;
  ret 0%Z.

(** Reading an attribute of a value that may be [None]. *)
Definition getattr_of {A : Type} (o : option A) (name : string) : M A :=
  match o with
  | Some a => ret a
  | None =>
      raise (Exception
               ("'NoneType' object has no attribute '" ++ name ++ "'")%string)
  end.

Definition handle_contact (update : Update) (context : Context) : M Z :=
  let user := from_user (message update) in
  the_contact <- getattr_of (contact (message update)) "phone_number" ;;
  let phone_number := phone_number the_contact in
  update_one collection
             [("chat_id", VInt (id user))]
             [("phone_number", VStr phone_number)] ;;
  reply_text ("Thank you for sharing your phone number: " ++ phone_number
              ++ ". Registration complete!")%string None ;;
  ret 0%Z.

Definition cancel (update : Update) (context : Context) : M Z :=
  reply_text "Bye! Hope to talk to you again soon." (Some ReplyKeyboardRemove) ;;
  ret 0%Z.

(** *** Generative AI *)

Definition send_message (chat : ChatSession) (content : option string)
  : M GenerateContentResponse :=
  fun w => (send_message_answer env (clock w) chat content,
            emit (SendMessage chat content) w).

Definition generate_content (m : GenerativeModel) (prompt : string)
           (img : Image) : M GenerateContentResponse :=
  fun w => (generate_content_answer env (clock w) m prompt img,
            emit (GenerateContent m prompt img) w).

(** [response.text] raises when the response holds no text part. *)
Definition response_text (r : GenerateContentResponse) : M string :=
  match text_part r with
  | Some s => ret s
  | None => raise (Exception "response.text requires a valid Part")
  end.

(** [chat.send_message(content).text] *)
Definition send_message_text (chat : ChatSession) (content : option string)
  : M string :=
  response <- send_message chat content ;;
  response_text response.

Definition GEMINI_APOLOGY : string :=
  "Sorry, I couldn't process your request right now. Please try again later.".

Definition gemini_query (update : Update) (context : Context) : M unit :=
  let user_input := text (message update) in
  let user := from_user (message update) in
  let chat_id := chat_id (message update) in
  try_except
    (let model :=
       {| model_name := "gemini-pro"; safety_settings := SAFETY_SETTINGS |} in
     let chat := start_chat model [] in
     bot_response <- send_message_text chat user_input ;;
     timestamp <- now ;;
     let chat_history :=
       [ ("chat_id", VInt chat_id);
         ("user_input", py_val_opt user_input);
         ("bot_response", VStr bot_response);
         ("timestamp", VDatetime timestamp) ] in
     insert_one chat_history_collection chat_history ;;
     reply_text bot_response None)
    (fun e =>
       logger_error ("Error with Gemini API: " ++ exn_str e)%string ;;
       reply_text GEMINI_APOLOGY None).

(** *** [handle_file] *)

Definition get_file (file_id : string) : M File :=
  fun w => (get_file_answer env (clock w) file_id, emit (GetFile file_id) w).

Definition download_as_bytearray (f : File) : M (list byte) :=
  fun w => (download_answer env (clock w) f, emit (DownloadAsBytearray f) w).

(** [update.message.document or update.message.photo[-1]] *)
Inductive Attachment : Type :=
| OfDocument (d : Document)
| OfPhoto (p : PhotoSize).

Definition file_id (a : Attachment) : string :=
  match a with
  | OfDocument d => document_file_id d
  | OfPhoto p => photo_file_id p
  end.

Fixpoint last_item {A : Type} (l : list A) : option A :=
  match l with
  | [] => None
  | [x] => Some x
  | _ :: l' => last_item l'
  end.

Definition document_or_last_photo (m : Message) : M Attachment :=
  match document m with
  | Some d => ret (OfDocument d)
  | None =>
      match last_item (photo m) with
      | Some p => ret (OfPhoto p)
      | None => raise (Exception "tuple index out of range")
      end
  end.

Definition FILE_APOLOGY : string :=
  "Sorry, I couldn't analyze the file right now. Please try again later.".

(** What [handle_file] runs inside its [try]. *)
Definition analyse_and_store (file_id : string) (file_name : PyVal)
           (prompt : string) (file_data : Image) : M unit :=
  let img_model :=
    {| model_name := "gemini-1.5-flash";
       safety_settings := SAFETY_SETTINGS |} in
  img_analysis <- generate_content img_model prompt file_data ;;
  description <- response_text img_analysis ;;
  timestamp <- now ;;
  let file_metadata :=
    [ ("file_id", VStr file_id);
      ("file_name", file_name);
      ("description", VStr description);
      ("timestamp", VDatetime timestamp) ] in
  insert_one file_metadata_collection file_metadata ;;
  reply_text
    ("Here is what I found in the image:" ++ LF ++ LF ++ description)%string
    None.

Definition handle_file (update : Update) (context : Context) : M unit :=
  file <- document_or_last_photo (message update) ;;
  let file_id := file_id file in
  file_info <- get_file file_id ;;
  let file_path := file_path file_info in
  let file_name :=
    match file with
    | OfDocument d => py_val_opt (document_file_name d)
    | OfPhoto _ => VStr ("image_" ++ file_id ++ ".jpg")%string
    end in
  downloaded <- download_as_bytearray file_info ;;
  file_data <- lift (image_open env downloaded) ;;
  let prompt := "Analyse this image and generate response" in
  try_except
    (analyse_and_store file_id file_name prompt file_data)
    (fun e =>
       logger_error ("Error analyzing file with Gemini: " ++ exn_str e)%string ;;
       reply_text FILE_APOLOGY None).

(** *** [web_search] and [websearch] *)

Definition requests_get (url : string) (params : Doc) : M Response :=
  fun w => (requests_get_answer env (clock w) url params,
            emit (HttpGet url params) w).

Definition NO_RESULTS : string :=
  "Sorry, I couldn't find relevant results for your query.".

Definition SEARCH_ERROR : string :=
  "Sorry, I encountered an error while fetching search results.".

Definition web_search (query : string) (chat_id : Z) : M string :=
  let api_key := environ env "serp_api_key" in
  let url := "https://serpapi.com/search" in
  let params := [("q", VStr query); ("api_key", py_val_opt api_key)] in
  response <- requests_get url params ;;
  if Z.eqb (status_code response) 200 then
    body <- lift (json response) ;;
    let results := match body with Some l => l | None => [] end in
    match results with
    | [] => ret NO_RESULTS
    | top_result :: _ =>
        let summary :=
          ("Here is a summary for your query:" ++ LF ++ LF)%string in
        let summary :=
          (summary
           ++ match snippet top_result with
              | Some s => s
              | None => "No summary available"
              end
           ++ "..." ++ LF ++ LF)%string in
        let summary :=
          (summary ++ "For more details, check the full article here: "
           ++ py_str_opt (link top_result))%string in
        timestamp <- now ;;
        let websearch_history :=
          [ ("chat_id", VInt chat_id);
            ("query", VStr query);
            ("summary", VStr summary);
            ("timestamp", VDatetime timestamp) ] in
        insert_one chat_history_collection websearch_history ;;
        ret summary
    end
  else ret SEARCH_ERROR.

Definition USAGE_HINT : string :=
  "Please provide a query to search for. Usage: /websearch <your_query>".

Definition websearch (update : Update) (context : Context) : M unit :=
  let chat_id := chat_id (message update) in
  let user_input := join " " (args context) in
  if String.eqb user_input "" then
    reply_text USAGE_HINT None
  else
    search_results <- web_search user_input chat_id ;;
    reply_text search_results None.

End Handlers.

(* ------------------------------------------------------------------ *)
(** ** Vocabulary of the properties *)

(** The filter [{"chat_id": uid}] and the documents it selects. *)
Definition by_chat_id (uid : Z) : Doc := [("chat_id", VInt uid)].

Definition records_for (uid : Z) (docs : list Doc) : list Doc :=
  filter (doc_matches (by_chat_id uid)) docs.

Definition at_most_one_per_chat_id (docs : list Doc) : Prop :=
  forall uid, (List.length (records_for uid docs) <= 1)%nat.

(** The document [register_user] builds. *)
Definition user_record (uid : Z) (fn : string) (un : option string) : Doc :=
  [ ("chat_id", VInt uid);
    ("first_name", VStr fn);
    ("username", py_val_opt un);
    ("phone_number", VNone) ].

(** A run of [register_user] calls, each call on its own (an exception of
    one call does not stop the next). *)
Fixpoint register_calls (env : Env) (calls : list (Z * string * option string))
         (w : World) : World :=
  match calls with
  | [] => w
  | (uid, fn, un) :: rest =>
      register_calls env rest (exec (register_user env uid fn un) w)
  end.

(** The documents a run appended to a collection. *)
Definition appended (c : CollName) (w w' : World) : list Doc :=
  skipn (List.length (db w c)) (db w' c).

Definition same_store (w w' : World) : Prop := forall c, db w' c = db w c.

(** What a list of events holds of each kind. *)
Definition replies_in (evs : list Event) : list string :=
  flat_map (fun ev => match ev with
                      | ReplyText body _ => [body]
                      | _ => []
                      end) evs.

Definition writes_in (evs : list Event) : list Event :=
  filter (fun ev => match ev with
                    | DbInsertOne _ _ | DbUpdateOne _ _ _ => true
                    | _ => false
                    end) evs.

Definition http_calls_in (evs : list Event) : list Event :=
  filter (fun ev => match ev with
                    | HttpGet _ _ => true
                    | _ => false
                    end) evs.

(** The request [web_search] sends for a query. *)
Definition SERP_URL : string := "https://serpapi.com/search".

Definition serp_params (env : Env) (query : string) : Doc :=
  [("q", VStr query); ("api_key", py_val_opt (environ env "serp_api_key"))].

Definition GEMINI_PRO_CHAT : ChatSession :=
  start_chat {| model_name := "gemini-pro";
                safety_settings := SAFETY_SETTINGS |} [].

Definition GEMINI_FLASH : GenerativeModel :=
  {| model_name := "gemini-1.5-flash"; safety_settings := SAFETY_SETTINGS |}.

Definition VISION_PROMPT : string := "Analyse this image and generate response".

(** The kinds of the values of a document, in order. *)
Definition attribute_kinds (d : Doc) : list PyType :=
  map (fun kv => type_of (snd kv)) d.

(** The steps of [handle_file] between picking the attachment and its
    [try]: ask Telegram for the file, download it, open it as an image. *)
Definition fetch_and_decode (env : Env) (file_id : string) : M Image :=
  file_info <- get_file env file_id ;;
  downloaded <- download_as_bytearray env file_info ;;
  lift (image_open env downloaded).

(** The [file_name] that [handle_file] computes for an attachment. *)
Definition file_name_of (file : Attachment) : PyVal :=
  match file with
  | OfDocument d => py_val_opt (document_file_name d)
  | OfPhoto _ => VStr ("image_" ++ file_id file ++ ".jpg")%string
  end.

(** A small environment and world on which the statements below are
    exercised: every outside party answers, the clock counts calls. *)
Module Sample.

Definition top : OrganicResult :=
  {| snippet := Some "S"; link := Some "L" |}.

Definition env : Env := {|
  environ := fun _ => None;
  datetime_now := fun n => Z.of_nat n;
  mongo_fault := fun _ => None;
  telegram_fault := fun _ => None;
  send_message_answer :=
    fun _ _ c => Ok {| text_part := Some ("echo: " ++ py_str_opt c)%string |};
  generate_content_answer := fun _ _ _ _ => Ok {| text_part := Some "a cat" |};
  get_file_answer := fun _ fid => Ok {| file_path := Some fid |};
  download_answer := fun _ _ => Ok [];
  image_open := fun b => Ok (ImageOf b);
  requests_get_answer :=
    fun _ _ _ => Ok {| status_code := 200; json := Ok (Some [top]) |}
|}.

(** The same, with a generative-AI service that is down. *)
Definition env_ai_down : Env := {|
  environ := environ env;
  datetime_now := datetime_now env;
  mongo_fault := mongo_fault env;
  telegram_fault := telegram_fault env;
  send_message_answer := fun _ _ _ => Raise (Exception "503 unavailable");
  generate_content_answer := fun _ _ _ _ => Raise (Exception "503 unavailable");
  get_file_answer := get_file_answer env;
  download_answer := download_answer env;
  image_open := image_open env;
  requests_get_answer := requests_get_answer env
|}.

(** The same, with a search provider that answers [status] and [body]. *)
Definition env_search (status : Z) (body : option (list OrganicResult))
  : Env := {|
  environ := environ env;
  datetime_now := datetime_now env;
  mongo_fault := mongo_fault env;
  telegram_fault := telegram_fault env;
  send_message_answer := send_message_answer env;
  generate_content_answer := generate_content_answer env;
  get_file_answer := get_file_answer env;
  download_answer := download_answer env;
  image_open := image_open env;
  requests_get_answer :=
    fun _ _ _ => Ok {| status_code := status; json := Ok body |}
|}.

(** The same, with a Telegram file service that is down. *)
Definition env_no_file : Env := {|
  environ := environ env;
  datetime_now := datetime_now env;
  mongo_fault := mongo_fault env;
  telegram_fault := telegram_fault env;
  send_message_answer := send_message_answer env;
  generate_content_answer := generate_content_answer env;
  get_file_answer := fun _ _ => Raise (Exception "file is too big");
  download_answer := download_answer env;
  image_open := image_open env;
  requests_get_answer := requests_get_answer env
|}.

Definition empty_world : World := {| db := fun _ => []; trace := [] |}.

Definition ann : User :=
  {| id := 7; first_name := "Ann"; username := Some "ann7" |}.

Definition text_message : Message :=
  {| from_user := ann; chat_id := 7; text := Some "hi";
     contact := None; document := None; photo := [] |}.

Definition contact_message : Message :=
  {| from_user := ann; chat_id := 7; text := None;
     contact := Some {| phone_number := "+15550100" |};
     document := None; photo := [] |}.

Definition photo_message : Message :=
  {| from_user := ann; chat_id := 7; text := None;
     contact := None; document := None;
     photo := [ {| photo_file_id := "small" |};
                {| photo_file_id := "large" |} ] |}.

Definition no_args : Context := {| args := [] |}.

End Sample.

(** The six handlers that [main] registers with the application.  Which
    of them the application picks for an update is decided by the
    library's filters; the statements about [run_handler] hold whichever
    handler runs on whichever update. *)
Inductive Handler : Type :=
| H_start
| H_handle_contact
| H_cancel
| H_gemini_query
| H_handle_file
| H_websearch.

(** One handler run; an exception that leaves the handler ends that run
    and the application goes on with the next update. *)
Definition run_handler (env : Env) (h : Handler) (update : Update)
           (context : Context) (w : World) : World :=
  match h with
  | H_start => exec (start env update context) w
  | H_handle_contact => exec (handle_contact env update context) w
  | H_cancel => exec (cancel env update context) w
  | H_gemini_query => exec (gemini_query env update context) w
  | H_handle_file => exec (handle_file env update context) w
  | H_websearch => exec (websearch env update context) w
  end.

Fixpoint run_updates (env : Env) (runs : list (Handler * Update * Context))
         (w : World) : World :=
  match runs with
  | [] => w
  | (h, update, context) :: rest =>
      run_updates env rest (run_handler env h update context w)
  end.

(** Every category of a safety configuration is set to [BLOCK_NONE]. *)
Definition blocks_nothing
           (settings : list (HarmCategory * HarmBlockThreshold)) : Prop :=
  forall category,
    exists threshold,
      In (category, threshold) settings /\
      forall threshold', In (category, threshold') settings ->
                         threshold' = BLOCK_NONE.

(** What an event asks of the generative-AI service, if anything. *)
Definition fresh_and_unfiltered (ev : Event) : Prop :=
  match ev with
  | SendMessage chat _ =>
      history chat = [] /\
      model_name (chat_model chat) = "gemini-pro" /\
      blocks_nothing (safety_settings (chat_model chat))
  | GenerateContent m prompt _ =>
      model_name m = "gemini-1.5-flash" /\
      prompt = "Analyse this image and generate response" /\
      blocks_nothing (safety_settings m)
  | _ => True
  end.

(** Environments that differ from a given one in the answers of one
    outside party. *)
Module Faults.

Definition with_mongo_fault (f : nat -> option PyExn) (env : Env) : Env := {|
  environ := environ env;
  datetime_now := datetime_now env;
  mongo_fault := f;
  telegram_fault := telegram_fault env;
  send_message_answer := send_message_answer env;
  generate_content_answer := generate_content_answer env;
  get_file_answer := get_file_answer env;
  download_answer := download_answer env;
  image_open := image_open env;
  requests_get_answer := requests_get_answer env
|}.

Definition with_telegram_fault (f : nat -> option PyExn) (env : Env) : Env := {|
  environ := environ env;
  datetime_now := datetime_now env;
  mongo_fault := mongo_fault env;
  telegram_fault := f;
  send_message_answer := send_message_answer env;
  generate_content_answer := generate_content_answer env;
  get_file_answer := get_file_answer env;
  download_answer := download_answer env;
  image_open := image_open env;
  requests_get_answer := requests_get_answer env
|}.

Definition with_requests_get (f : nat -> string -> Doc -> Outcome Response)
           (env : Env) : Env := {|
  environ := environ env;
  datetime_now := datetime_now env;
  mongo_fault := mongo_fault env;
  telegram_fault := telegram_fault env;
  send_message_answer := send_message_answer env;
  generate_content_answer := generate_content_answer env;
  get_file_answer := get_file_answer env;
  download_answer := download_answer env;
  image_open := image_open env;
  requests_get_answer := f
|}.

(** Fails on the call number [n] only. *)
Definition only_at (n : nat) (e : PyExn) : nat -> option PyExn :=
  fun k => if Nat.eqb k n then Some e else None.

Definition always (e : PyExn) : nat -> option PyExn := fun _ => Some e.

Definition store_down : PyExn := Exception "ServerSelectionTimeoutError".

Definition too_long : PyExn := Exception "Message is too long".

Definition document_message : Message :=
  {| from_user := Sample.ann; chat_id := 7; text := None;
     contact := None;
     document := Some {| document_file_id := "doc1";
                         document_file_name := Some "scan.png" |};
     photo := [ {| photo_file_id := "thumb" |} ] |}.

Definition bare_message : Message :=
  {| from_user := Sample.ann; chat_id := 7; text := None;
     contact := None; document := None; photo := [] |}.

Definition ann_record : Doc := user_record 7 "Ann" (Some "ann7").

Definition world_with_ann : World :=
  {| db := fun c => match c with
                    | collection => [ann_record]
                    | _ => []
                    end;
     trace := [] |}.

End Faults.

(* ------------------------------------------------------------------ *)
(** ** Basic facts about the world and the store *)

Arguments clock : simpl never.

Lemma clock_emit (ev : Event) (w : World) : clock (emit ev w) = S (clock w).
Proof.
  unfold clock, emit; simpl. rewrite length_app; simpl. lia.
Qed.

Lemma clock_set_coll (c : CollName) (docs : list Doc) (w : World) :
  clock (set_coll c docs w) = clock w.
Proof. reflexivity. Qed.

Lemma string_app_assoc (a b c : string) :
  ((a ++ b) ++ c = a ++ (b ++ c))%string.
Proof. induction a as [|x a IH]; cbn; [reflexivity | now rewrite IH]. Qed.

Lemma skipn_exact {A : Type} (l l' : list A) :
  skipn (List.length l) (l ++ l') = l'.
Proof. induction l as [|x l IH]; simpl; auto. Qed.

Lemma emitted_app (w w' : World) (evs : list Event) :
  trace w' = trace w ++ evs -> emitted w w' = evs.
Proof. intros H. unfold emitted. rewrite H. apply skipn_exact. Qed.

Lemma appended_app (c : CollName) (w w' : World) (docs : list Doc) :
  db w' c = db w c ++ docs -> appended c w w' = docs.
Proof. intros H. unfold appended. rewrite H. apply skipn_exact. Qed.

Lemma appended_same (c : CollName) (w w' : World) :
  db w' c = db w c -> appended c w w' = [].
Proof.
  intros H. apply appended_app. rewrite H. symmetry. apply app_nil_r.
Qed.

Lemma find_none_filter {A : Type} (p : A -> bool) (l : list A) :
  find p l = None <-> filter p l = [].
Proof.
  induction l as [|x l IH]; simpl.
  - tauto.
  - destruct (p x); [split; discriminate | exact IH].
Qed.

Lemma matches_chat_id (uid : Z) (d : Doc) :
  doc_matches (by_chat_id uid) d = true <->
  doc_get "chat_id" d = Some (VInt uid).
Proof.
  unfold doc_matches, by_chat_id; simpl.
  destruct (doc_get "chat_id" d) as [v|]; simpl.
  - rewrite andb_true_r. destruct v; simpl; split; try discriminate.
    + intros H. apply Z.eqb_eq in H. now subst.
    + intros H. inversion H. apply Z.eqb_refl.
  - split; discriminate.
Qed.

(** A document found under a chat identifier is never the empty dict, so
    the truth test of [register_user] sees it. *)
Lemma found_by_chat_id_truthy (uid : Z) (docs : list Doc) (d : Doc) :
  find (doc_matches (by_chat_id uid)) docs = Some d ->
  py_truthy_doc (Some d) = true.
Proof.
  intros H. apply find_some in H. destruct H as [_ H].
  apply matches_chat_id in H. destruct d; [discriminate | reflexivity].
Qed.

Lemma user_record_matches (uid uid' : Z) (fn : string) (un : option string) :
  doc_matches (by_chat_id uid') (user_record uid fn un) = Z.eqb uid uid'.
Proof.
  unfold doc_matches, by_chat_id, user_record; simpl.
  now rewrite andb_true_r.
Qed.

Lemma records_for_app (uid : Z) (l l' : list Doc) :
  records_for uid (l ++ l') = records_for uid l ++ records_for uid l'.
Proof. unfold records_for. apply filter_app. Qed.

Lemma records_for_user_record (uid uid' : Z) (fn : string)
      (un : option string) :
  records_for uid' [user_record uid fn un] =
  if Z.eqb uid uid' then [user_record uid fn un] else [].
Proof.
  unfold records_for. cbn [filter]. now rewrite user_record_matches.
Qed.

(** Unfolding of the monad and of the outside calls. *)
Ltac step :=
  unfold exec, outcome, bind, ret, raise, lift, try_except,
         find_one, insert_one, update_one, reply_text,
         logger_info, logger_error, now,
         send_message, generate_content, get_file, download_as_bytearray,
         requests_get; cbn beta iota.

Ltac trace_eq :=
  erewrite emitted_app;
  [ reflexivity
  | cbn [trace emit set_coll]; rewrite <- ?app_assoc; reflexivity ].

Ltac emitted_is :=
  match goal with
  | |- context [emitted ?w ?w'] =>
      erewrite (emitted_app w w')
        by (cbn [trace emit set_coll]; rewrite <- ?app_assoc; reflexivity)
  end.

(** Closes the conjuncts that hold by computation once the outside
    answers are known. *)
Ltac settle :=
  repeat split;
  try (intros c; destruct c; reflexivity);
  try emitted_is;
  try reflexivity.

(** Case analysis on every outside answer a handler consults. *)
Ltac answers :=
  repeat match goal with
         | |- context [match ?x with _ => _ end] =>
             lazymatch x with
             | context [match _ with _ => _ end] => fail
             | _ => destruct x eqn:?; cbn
             end
         end.

Ltac appended_is :=
  match goal with
  | H : In _ (appended ?c ?w ?w') |- _ =>
      first [ rewrite (appended_same c w w') in H by reflexivity
            | erewrite (appended_app c w w') in H by (cbn; reflexivity) ];
      cbn [In] in H
  end.

(** A call of [register_user] for an identifier that has a record only
    looks it up. *)
Lemma register_user_known (env : Env) (uid : Z) (fn : string)
      (un : option string) (w : World) :
  records_for uid (db w collection) <> [] ->
  let w' := exec (register_user env uid fn un) w in
  same_store w w' /\ emitted w w' = [DbFindOne collection (by_chat_id uid)].
Proof.
  intros Hex. unfold register_user. step.
  destruct (mongo_fault env (clock w)) as [e|]; cbn.
  - split; [intros c; reflexivity | trace_eq].
  - destruct (find (doc_matches [("chat_id", VInt uid)]) (db w collection))
      as [d|] eqn:Hfind.
    + rewrite (found_by_chat_id_truthy uid _ d Hfind); cbn.
      split; [intros c; reflexivity | trace_eq].
    + apply find_none_filter in Hfind. contradiction.
Qed.

(** A call of [register_user] leaves the other collections alone and
    either leaves the users as they are or, having found no record,
    appends the new one. *)
Lemma register_user_grows (env : Env) (uid : Z) (fn : string)
      (un : option string) (w : World) :
  let w' := exec (register_user env uid fn un) w in
  (forall c, c <> collection -> db w' c = db w c) /\
  (db w' collection = db w collection \/
   (records_for uid (db w collection) = [] /\
    db w' collection = db w collection ++ [user_record uid fn un])).
Proof.
  unfold register_user. step.
  destruct (mongo_fault env (clock w)) as [e|]; cbn.
  - split; [reflexivity | now left].
  - destruct (find (doc_matches [("chat_id", VInt uid)]) (db w collection))
      as [d|] eqn:Hfind.
    + rewrite (found_by_chat_id_truthy uid _ d Hfind); cbn.
      split; [reflexivity | now left].
    + cbn. destruct (mongo_fault env _) as [e|]; cbn.
      * split; [reflexivity | now left].
      * split.
        -- intros c Hc. destruct c; cbn; congruence.
        -- right. split; [now apply find_none_filter | reflexivity].
Qed.

(** After a call that returned normally the identifier has a record. *)
Lemma register_user_ok_known (env : Env) (uid : Z) (fn : string)
      (un : option string) (w : World) :
  outcome (register_user env uid fn un) w = Ok tt ->
  records_for uid (db (exec (register_user env uid fn un) w) collection) <> [].
Proof.
  unfold register_user. step.
  destruct (mongo_fault env (clock w)) as [e|]; cbn; [discriminate|].
  destruct (find (doc_matches [("chat_id", VInt uid)]) (db w collection))
    as [d|] eqn:Hfind.
  - rewrite (found_by_chat_id_truthy uid _ d Hfind); cbn.
    intros _ Hnone. apply find_none_filter in Hnone.
    unfold by_chat_id in Hnone. congruence.
  - cbn. destruct (mongo_fault env _) as [e|]; cbn; [discriminate|].
    intros _.
    change (records_for uid (db w collection ++ [user_record uid fn un]) <> []).
    rewrite records_for_app, records_for_user_record, Z.eqb_refl.
    intros H. apply app_eq_nil in H. destruct H; discriminate.
Qed.

Lemma register_user_invariant (env : Env) (uid : Z) (fn : string)
      (un : option string) (w : World) :
  at_most_one_per_chat_id (db w collection) ->
  at_most_one_per_chat_id (db (exec (register_user env uid fn un) w) collection).
Proof.
  intros Hinv.
  destruct (register_user_grows env uid fn un w) as [_ [Hsame | [Hnew Happ]]].
  - now rewrite Hsame.
  - rewrite Happ. intros uid'.
    rewrite records_for_app, records_for_user_record, length_app.
    destruct (Z.eqb_spec uid uid') as [->|Hne]; cbn.
    + rewrite Hnew. cbn. lia.
    + specialize (Hinv uid'). lia.
Qed.

Lemma register_user_keeps_known (env : Env) (uid uid' : Z) (fn : string)
      (un : option string) (w : World) :
  records_for uid' (db w collection) <> [] ->
  records_for uid' (db (exec (register_user env uid fn un) w) collection) <> [].
Proof.
  intros Hex.
  destruct (register_user_grows env uid fn un w) as [_ [Hsame | [_ Happ]]].
  - now rewrite Hsame.
  - rewrite Happ, records_for_app. intros H.
    apply app_eq_nil in H. tauto.
Qed.

Lemma register_calls_invariant (env : Env)
      (calls : list (Z * string * option string)) (w : World) :
  at_most_one_per_chat_id (db w collection) ->
  at_most_one_per_chat_id (db (register_calls env calls w) collection).
Proof.
  revert w. induction calls as [|[[uid fn] un] calls IH]; intros w Hinv; cbn.
  - exact Hinv.
  - apply IH. now apply register_user_invariant.
Qed.

Lemma register_calls_keep_known (env : Env)
      (calls : list (Z * string * option string)) (uid : Z) (w : World) :
  records_for uid (db w collection) <> [] ->
  records_for uid (db (register_calls env calls w) collection) <> [].
Proof.
  revert w. induction calls as [|[[uid' fn] un] calls IH]; intros w Hex; cbn.
  - exact Hex.
  - apply IH. now apply register_user_keeps_known.
Qed.

(** C1. [register_user] is idempotent.  Starting from users with at most
    one record per chat identifier (the empty collection, for one), any
    run of [register_user] calls leaves at most one record per chat
    identifier; and once a call for an identifier has returned, every
    later call for that identifier, whatever was registered in between
    and whatever name it brings, changes no collection and sends the
    store nothing but the lookup: no insert, no other write. *)
Theorem register_user_idempotent
        (env : Env) (calls later : list (Z * string * option string))
        (w0 : World) (uid : Z) (fn fn' : string) (un un' : option string) :
  at_most_one_per_chat_id (db w0 collection) ->
  let w1 := register_calls env calls w0 in
  at_most_one_per_chat_id (db w1 collection) /\
  (outcome (register_user env uid fn un) w1 = Ok tt ->
   let w2 := register_calls env later (exec (register_user env uid fn un) w1) in
   let w3 := exec (register_user env uid fn' un') w2 in
   same_store w2 w3 /\
   emitted w2 w3 = [DbFindOne collection (by_chat_id uid)] /\
   writes_in (emitted w2 w3) = []).
Proof.
  intros Hinv w1. split.
  - now apply register_calls_invariant.
  - intros Hok w2 w3.
    assert (Hknown : records_for uid (db w2 collection) <> []).
    { apply register_calls_keep_known. now apply register_user_ok_known. }
    destruct (register_user_known env uid fn' un' w2 Hknown) as [Hsame Hem].
    fold w3 in Hsame, Hem.
    repeat split; auto.
    rewrite Hem. reflexivity.
Qed.

Lemma register_user_idempotent_witness :
  at_most_one_per_chat_id (db Sample.empty_world collection) /\
  let w1 := register_calls Sample.env [(8%Z, "Bob", None)] Sample.empty_world in
  outcome (register_user Sample.env 7 "Ann" (Some "ann7")) w1 = Ok tt /\
  at_most_one_per_chat_id (db w1 collection) /\
  let w2 := register_calls Sample.env [(9%Z, "Cy", None)]
              (exec (register_user Sample.env 7 "Ann" (Some "ann7")) w1) in
  let w3 := exec (register_user Sample.env 7 "Anna" None) w2 in
  same_store w2 w3 /\
  emitted w2 w3 = [DbFindOne collection (by_chat_id 7)] /\
  writes_in (emitted w2 w3) = [].
Proof.
  split; [intros uid; cbn; lia|].
  cbv zeta.
  split; [reflexivity|].
  destruct (register_user_idempotent
              Sample.env [(8%Z, "Bob", None)] [(9%Z, "Cy", None)]
              Sample.empty_world 7 "Ann" "Anna" (Some "ann7") None)
    as [Hinv Hnoop].
  - intros uid; cbn; lia.
  - split; [exact Hinv|]. apply Hnoop. reflexivity.
Defined.

(** C2. When the AI text responder fails on the message text (the call
    to the model raises, or its answer holds no text), [gemini_query]
    logs the error and replies with the fixed apology and nothing else;
    it sends the store no write and every collection is as before. *)
Theorem gemini_query_apology_on_failure
        (env : Env) (update : Update) (context : Context) (w : World)
        (e : PyExn) :
  outcome (send_message_text env GEMINI_PRO_CHAT (text (message update))) w
  = Raise e ->
  let w' := exec (gemini_query env update context) w in
  emitted w w' =
    [ SendMessage GEMINI_PRO_CHAT (text (message update));
      LogRecord ERROR ("Error with Gemini API: " ++ exn_str e)%string;
      ReplyText GEMINI_APOLOGY None ] /\
  replies_in (emitted w w') = [GEMINI_APOLOGY] /\
  writes_in (emitted w w') = [] /\
  same_store w w'.
Proof.
  unfold gemini_query, send_message_text, response_text, GEMINI_PRO_CHAT.
  step.
  destruct (send_message_answer env (clock w) _ _) as [r|e0]; cbn.
  - destruct (text_part r) as [s|]; cbn; [discriminate|].
    intros H; inversion H; subst e; clear H.
    destruct (telegram_fault env _); cbn; settle.
  - intros H; inversion H; subst e0; clear H.
    destruct (telegram_fault env _); cbn; settle.
Qed.

Lemma gemini_query_apology_on_failure_witness :
  outcome (send_message_text Sample.env_ai_down GEMINI_PRO_CHAT
             (text (message {| message := Sample.text_message |})))
          Sample.empty_world
  = Raise (Exception "503 unavailable") /\
  let w' := exec (gemini_query Sample.env_ai_down
                    {| message := Sample.text_message |} Sample.no_args)
                 Sample.empty_world in
  replies_in (emitted Sample.empty_world w') = [GEMINI_APOLOGY] /\
  same_store Sample.empty_world w'.
Proof.
  split; [reflexivity|].
  pose proof (gemini_query_apology_on_failure
                Sample.env_ai_down {| message := Sample.text_message |}
                Sample.no_args Sample.empty_world
                (Exception "503 unavailable") eq_refl) as H.
  cbv zeta in H. destruct H as [_ [Hr [_ Hs]]]. split; assumption.
Defined.

(** X3. The [try] of [gemini_query] also spans the insert and the
    reply.  When the responder answered and the record is stored, and
    the transport then refuses the reply, the apology follows and the
    stored record stays. *)
Lemma gemini_query_reply_refused
      (env : Env) (update : Update) (context : Context) (w : World)
      (r : GenerateContentResponse) (answer : string) (e : PyExn) :
  send_message_answer env (clock w) GEMINI_PRO_CHAT (text (message update))
  = Ok r ->
  text_part r = Some answer ->
  mongo_fault env (S (clock w)) = None ->
  telegram_fault env (S (S (clock w))) = Some e ->
  let w' := exec (gemini_query env update context) w in
  replies_in (emitted w w') = [answer; GEMINI_APOLOGY] /\
  List.length (appended chat_history_collection w w') = 1%nat.
Proof.
  intros Hans Htext Hdb Htg.
  unfold gemini_query, send_message_text, response_text, GEMINI_PRO_CHAT in *.
  step. rewrite Hans. cbn. rewrite Htext. cbn.
  rewrite clock_emit, Hdb. cbn.
  rewrite clock_set_coll, !clock_emit, Htg. cbn.
  match goal with
  | |- context [telegram_fault env (clock ?x)] =>
      destruct (telegram_fault env (clock x))
  end; cbn;
    (split; [emitted_is; reflexivity|]);
    (erewrite appended_app by (cbn; reflexivity)); reflexivity.
Qed.

(** C3. When the search provider answers status 200 with a list of
    organic results that starts with [{snippet: S, link: L}], and the
    store takes the write, [web_search] returns the text
    ["Here is a summary for your query:\n\n" S "...\n\n"
     "For more details, check the full article here: " L], which holds
    [S] followed by the details sentence ending in [L]; and it appends
    exactly one record to the conversation log, holding the calling
    chat identifier, the query, that text and the time. *)
Theorem web_search_relays_top_result
        (env : Env) (query : string) (cid : Z) (w : World)
        (resp : Response) (top : OrganicResult) (rest : list OrganicResult)
        (S L : string) :
  requests_get_answer env (clock w) SERP_URL (serp_params env query) = Ok resp ->
  status_code resp = 200%Z ->
  json resp = Ok (Some (top :: rest)) ->
  snippet top = Some S ->
  link top = Some L ->
  mongo_fault env (Datatypes.S (clock w)) = None ->
  let w' := exec (web_search env query cid) w in
  exists summary record,
    outcome (web_search env query cid) w = Ok summary /\
    summary = ("Here is a summary for your query:" ++ LF ++ LF ++ S ++ "..."
               ++ LF ++ LF
               ++ "For more details, check the full article here: " ++ L)%string /\
    (exists pre mid,
        summary = (pre ++ S ++ mid
                   ++ "For more details, check the full article here: "
                   ++ L)%string) /\
    record = [ ("chat_id", VInt cid);
               ("query", VStr query);
               ("summary", VStr summary);
               ("timestamp", VDatetime (datetime_now env (Datatypes.S (clock w)))) ] /\
    db w' chat_history_collection = db w chat_history_collection ++ [record] /\
    db w' collection = db w collection /\
    db w' file_metadata_collection = db w file_metadata_collection /\
    writes_in (emitted w w') = [DbInsertOne chat_history_collection record].
Proof.
  intros Hget Hstatus Hjson Hsnip Hlink Hdb.
  unfold web_search. step.
  unfold SERP_URL, serp_params in Hget. rewrite Hget. cbn.
  rewrite Hstatus. cbn. rewrite Hjson. cbn.
  rewrite Hsnip, Hlink. cbn. rewrite clock_emit, Hdb. cbn.
  eexists. eexists.
  split; [reflexivity|].
  split.
  { rewrite !string_app_assoc. reflexivity. }
  split.
  { exists ("Here is a summary for your query:" ++ LF ++ LF)%string.
    exists ("..." ++ LF ++ LF)%string.
    rewrite !string_app_assoc. reflexivity. }
  settle.
Qed.

Lemma web_search_relays_top_result_witness :
  requests_get_answer Sample.env (clock Sample.empty_world) SERP_URL
                      (serp_params Sample.env "rocq") = Ok
    {| status_code := 200; json := Ok (Some [Sample.top]) |} /\
  mongo_fault Sample.env (S (clock Sample.empty_world)) = None /\
  exists summary record,
    outcome (web_search Sample.env "rocq" 7) Sample.empty_world = Ok summary /\
    db (exec (web_search Sample.env "rocq" 7) Sample.empty_world)
       chat_history_collection = [record] /\
    doc_get "summary" record = Some (VStr summary) /\
    doc_get "chat_id" record = Some (VInt 7).
Proof.
  split; [reflexivity|]. split; [reflexivity|].
  destruct (web_search_relays_top_result
              Sample.env "rocq" 7 Sample.empty_world
              {| status_code := 200; json := Ok (Some [Sample.top]) |}
              Sample.top [] "S" "L"
              eq_refl eq_refl eq_refl eq_refl eq_refl eq_refl)
    as (summary & record & Hout & _ & _ & Hrec & Hdb & _).
  exists summary, record.
  split; [exact Hout|]. split; [exact Hdb|].
  rewrite Hrec. split; reflexivity.
Defined.

(** C4. When the search provider answers status 200 with an empty list
    of organic results, [web_search] returns exactly the fixed
    no-results text; it sends the store nothing and every collection is
    as before. *)
Theorem web_search_no_results
        (env : Env) (query : string) (cid : Z) (w : World) (resp : Response) :
  requests_get_answer env (clock w) SERP_URL (serp_params env query) = Ok resp ->
  status_code resp = 200%Z ->
  json resp = Ok (Some []) ->
  let w' := exec (web_search env query cid) w in
  outcome (web_search env query cid) w
  = Ok "Sorry, I couldn't find relevant results for your query." /\
  same_store w w' /\
  emitted w w' = [HttpGet SERP_URL (serp_params env query)].
Proof.
  intros Hget Hstatus Hjson.
  unfold web_search. step.
  unfold SERP_URL, serp_params in *. rewrite Hget. cbn.
  rewrite Hstatus. cbn. rewrite Hjson. cbn.
  settle.
Qed.

Lemma web_search_no_results_witness :
  let env := Sample.env_search 200 (Some []) in
  outcome (web_search env "rocq" 7) Sample.empty_world = Ok NO_RESULTS /\
  same_store Sample.empty_world (exec (web_search env "rocq" 7) Sample.empty_world).
Proof.
  cbv zeta.
  destruct (web_search_no_results
              (Sample.env_search 200 (Some [])) "rocq" 7 Sample.empty_world
              {| status_code := 200; json := Ok (Some []) |}
              eq_refl eq_refl eq_refl) as (Hout & Hsame & _).
  split; [exact Hout | exact Hsame].
Defined.

(** C5. When the search provider answers any status other than 200,
    [web_search] returns the fixed generic error text; it sends the store
    nothing and every collection is as before. *)
Theorem web_search_bad_status
        (env : Env) (query : string) (cid : Z) (w : World) (resp : Response) :
  requests_get_answer env (clock w) SERP_URL (serp_params env query) = Ok resp ->
  status_code resp <> 200%Z ->
  let w' := exec (web_search env query cid) w in
  outcome (web_search env query cid) w
  = Ok "Sorry, I encountered an error while fetching search results." /\
  same_store w w' /\
  emitted w w' = [HttpGet SERP_URL (serp_params env query)].
Proof.
  intros Hget Hstatus.
  unfold web_search. step.
  unfold SERP_URL, serp_params in *. rewrite Hget. cbn.
  destruct (Z.eqb_spec (status_code resp) 200) as [Heq|_]; [contradiction|].
  settle.
Qed.

Lemma web_search_bad_status_witness :
  let env := Sample.env_search 429 (Some [Sample.top]) in
  outcome (web_search env "rocq" 7) Sample.empty_world = Ok SEARCH_ERROR /\
  same_store Sample.empty_world (exec (web_search env "rocq" 7) Sample.empty_world).
Proof.
  cbv zeta.
  destruct (web_search_bad_status
              (Sample.env_search 429 (Some [Sample.top])) "rocq" 7
              Sample.empty_world
              {| status_code := 429; json := Ok (Some [Sample.top]) |}
              eq_refl ltac:(cbn; discriminate)) as (Hout & Hsame & _).
  split; [exact Hout | exact Hsame].
Defined.

(** C6. When no argument text follows [/websearch] (joining the
    arguments gives the empty string), [websearch] replies with the usage
    hint and does nothing else: no HTTP request is made, so [web_search]
    is not entered, and every collection is as before. *)
Theorem websearch_usage_hint
        (env : Env) (update : Update) (context : Context) (w : World) :
  join " " (args context) = "" ->
  let w' := exec (websearch env update context) w in
  emitted w w' =
    [ReplyText
       "Please provide a query to search for. Usage: /websearch <your_query>"
       None] /\
  http_calls_in (emitted w w') = [] /\
  same_store w w'.
Proof.
  intros Hargs. unfold websearch. rewrite Hargs. cbn [String.eqb].
  step. unfold USAGE_HINT.
  destruct (telegram_fault env (clock w)); cbn; settle.
Qed.

Lemma websearch_usage_hint_witness :
  join " " (args Sample.no_args) = "" /\
  let w' := exec (websearch Sample.env {| message := Sample.text_message |}
                            Sample.no_args) Sample.empty_world in
  emitted Sample.empty_world w' = [ReplyText USAGE_HINT None] /\
  http_calls_in (emitted Sample.empty_world w') = [] /\
  same_store Sample.empty_world w'.
Proof.
  split; [reflexivity|].
  apply (websearch_usage_hint Sample.env {| message := Sample.text_message |}
                              Sample.no_args Sample.empty_world).
  reflexivity.
Defined.

(** C7. Setting the phone number of a chat identifier that has no user
    record: while the store answers, [update_one] returns normally with
    zero documents matched and zero modified, and [handle_contact] goes
    on to its confirmation reply with every collection as before; the
    only exception that can leave the handler is one of the transport. *)
Theorem handle_contact_without_record
        (env : Env) (update : Update) (context : Context) (w : World)
        (c : Contact) :
  contact (message update) = Some c ->
  records_for (id (from_user (message update))) (db w collection) = [] ->
  mongo_fault env (clock w) = None ->
  let uid := id (from_user (message update)) in
  let fields := [("phone_number", VStr (phone_number c))] in
  let w' := exec (handle_contact env update context) w in
  outcome (update_one env collection (by_chat_id uid) fields) w
  = Ok {| matched_count := 0; modified_count := 0 |} /\
  same_store w (exec (update_one env collection (by_chat_id uid) fields) w) /\
  same_store w w' /\
  emitted w w' =
    [ DbUpdateOne collection (by_chat_id uid) fields;
      ReplyText ("Thank you for sharing your phone number: "
                 ++ phone_number c ++ ". Registration complete!")%string None ] /\
  outcome (handle_contact env update context) w
  = match telegram_fault env (S (clock w)) with
    | Some e => Raise e
    | None => Ok 0%Z
    end.
Proof.
  intros Hc Hnone Hdb uid fields.
  apply find_none_filter in Hnone. unfold by_chat_id in *.
  unfold handle_contact, getattr_of. rewrite Hc. step.
  subst uid fields. rewrite Hdb, Hnone. cbn. rewrite clock_emit.
  destruct (telegram_fault env (S (clock w))); cbn; settle.
Qed.

Lemma handle_contact_without_record_witness :
  contact (message {| message := Sample.contact_message |})
  = Some {| phone_number := "+15550100" |} /\
  records_for 7 (db Sample.empty_world collection) = [] /\
  mongo_fault Sample.env (clock Sample.empty_world) = None /\
  same_store Sample.empty_world
             (exec (handle_contact Sample.env
                      {| message := Sample.contact_message |} Sample.no_args)
                   Sample.empty_world) /\
  outcome (handle_contact Sample.env
             {| message := Sample.contact_message |} Sample.no_args)
          Sample.empty_world = Ok 0%Z.
Proof.
  split; [reflexivity|]. split; [reflexivity|]. split; [reflexivity|].
  destruct (handle_contact_without_record
              Sample.env {| message := Sample.contact_message |}
              Sample.no_args Sample.empty_world
              {| phone_number := "+15550100" |} eq_refl eq_refl eq_refl)
    as (_ & _ & Hsame & _ & Hout).
  split; [exact Hsame | exact Hout].
Defined.

(** C8. [/start] from a chat identifier that has no user record, while
    the store answers: the handler looks the identifier up, inserts
    exactly one user record, whose phone number is [None], and after
    that sends the welcome text with a one-button keyboard that requests
    the contact.  Nothing else is written. *)
Theorem start_registers_new_user
        (env : Env) (update : Update) (context : Context) (w : World) :
  let user := from_user (message update) in
  records_for (id user) (db w collection) = [] ->
  mongo_fault env (clock w) = None ->
  mongo_fault env (S (clock w)) = None ->
  let record := user_record (id user) (first_name user) (username user) in
  let w' := exec (start env update context) w in
  db w' collection = db w collection ++ [record] /\
  doc_get "phone_number" record = Some VNone /\
  db w' chat_history_collection = db w chat_history_collection /\
  db w' file_metadata_collection = db w file_metadata_collection /\
  emitted w w' =
    [ DbFindOne collection (by_chat_id (id user));
      DbInsertOne collection record;
      LogRecord INFO ("Registered new user: " ++ first_name user ++ " (@"
                      ++ py_str_opt (username user) ++ ")")%string;
      ReplyText
        "Welcome to the User Registration Bot! Please share your phone number to continue."
        (Some (ReplyKeyboardMarkup
                 [[ {| button_text := "Share my phone number";
                       request_contact := true |} ]] true true)) ] /\
  writes_in (emitted w w') = [DbInsertOne collection record].
Proof.
  intros user Hnone Hdb1 Hdb2 record.
  apply find_none_filter in Hnone. unfold by_chat_id in *.
  unfold start, register_user. step. fold user.
  rewrite Hdb1, Hnone. cbn. rewrite clock_emit, Hdb2. cbn.
  destruct (telegram_fault env _); cbn; settle.
Qed.

Lemma start_registers_new_user_witness :
  records_for 7 (db Sample.empty_world collection) = [] /\
  mongo_fault Sample.env (clock Sample.empty_world) = None /\
  mongo_fault Sample.env (S (clock Sample.empty_world)) = None /\
  let w' := exec (start Sample.env {| message := Sample.text_message |}
                        Sample.no_args) Sample.empty_world in
  db w' collection = [user_record 7 "Ann" (Some "ann7")] /\
  writes_in (emitted Sample.empty_world w')
  = [DbInsertOne collection (user_record 7 "Ann" (Some "ann7"))].
Proof.
  split; [reflexivity|]. split; [reflexivity|]. split; [reflexivity|].
  destruct (start_registers_new_user
              Sample.env {| message := Sample.text_message |}
              Sample.no_args Sample.empty_world eq_refl eq_refl eq_refl)
    as (Hdb & _ & _ & _ & _ & Hw).
  split; [exact Hdb | exact Hw].
Defined.

(** C9. Every record appended to the conversation log, by the AI chat
    or by the web search, has the same attribute shape: four attributes,
    in this order and of these kinds -- the chat identifier (an integer),
    the input text, the output text and the creation time.  For the AI
    chat on a text message the input is the message text and the output
    is the model's answer, stored as [user_input] and [bot_response];
    for the web search the input is the query and the output is the
    returned text, stored as [query] and [summary].  Both flows store
    the chat identifier as [chat_id] and the time as [timestamp]. *)
Theorem conversation_record_attributes
        (env : Env) (update : Update) (context : Context)
        (query : string) (cid : Z) (w1 w2 : World) (input : string) :
  text (message update) = Some input ->
  (forall d,
      In d (appended chat_history_collection w1
                     (exec (gemini_query env update context) w1)) ->
      exists output t,
        outcome (send_message_text env GEMINI_PRO_CHAT (Some input)) w1
        = Ok output /\
        d = [ ("chat_id", VInt (chat_id (message update)));
              ("user_input", VStr input);
              ("bot_response", VStr output);
              ("timestamp", VDatetime t) ] /\
        attribute_kinds d = [TInt; TStr; TStr; TDatetime]) /\
  (forall d,
      In d (appended chat_history_collection w2
                     (exec (web_search env query cid) w2)) ->
      exists output t,
        outcome (web_search env query cid) w2 = Ok output /\
        d = [ ("chat_id", VInt cid);
              ("query", VStr query);
              ("summary", VStr output);
              ("timestamp", VDatetime t) ] /\
        attribute_kinds d = [TInt; TStr; TStr; TDatetime]) /\
  (forall d1 d2,
      In d1 (appended chat_history_collection w1
                      (exec (gemini_query env update context) w1)) ->
      In d2 (appended chat_history_collection w2
                      (exec (web_search env query cid) w2)) ->
      attribute_kinds d1 = attribute_kinds d2).
Proof.
  intros Htext.
  assert (Hchat :
            forall d,
              In d (appended chat_history_collection w1
                             (exec (gemini_query env update context) w1)) ->
              exists output t,
                outcome (send_message_text env GEMINI_PRO_CHAT (Some input)) w1
                = Ok output /\
                d = [ ("chat_id", VInt (chat_id (message update)));
                      ("user_input", VStr input);
                      ("bot_response", VStr output);
                      ("timestamp", VDatetime t) ] /\
                attribute_kinds d = [TInt; TStr; TStr; TDatetime]).
  { intros d.
    unfold gemini_query, send_message_text, response_text, GEMINI_PRO_CHAT.
    rewrite Htext. step. answers; intros Hin; appended_is;
      try contradiction;
      destruct Hin as [<-|[]]; eexists; eexists; repeat split. }
  assert (Hweb :
            forall d,
              In d (appended chat_history_collection w2
                             (exec (web_search env query cid) w2)) ->
              exists output t,
                outcome (web_search env query cid) w2 = Ok output /\
                d = [ ("chat_id", VInt cid);
                      ("query", VStr query);
                      ("summary", VStr output);
                      ("timestamp", VDatetime t) ] /\
                attribute_kinds d = [TInt; TStr; TStr; TDatetime]).
  { intros d.
    unfold web_search. step. answers; intros Hin; appended_is;
      try contradiction;
      destruct Hin as [<-|[]]; eexists; eexists; repeat split. }
  split; [exact Hchat|]. split; [exact Hweb|].
  intros d1 d2 H1 H2.
  destruct (Hchat d1 H1) as (? & ? & _ & _ & ->).
  destruct (Hweb d2 H2) as (? & ? & _ & _ & ->).
  reflexivity.
Qed.

Lemma conversation_record_attributes_witness :
  text (message {| message := Sample.text_message |}) = Some "hi" /\
  appended chat_history_collection Sample.empty_world
           (exec (gemini_query Sample.env {| message := Sample.text_message |}
                               Sample.no_args) Sample.empty_world)
  = [ [ ("chat_id", VInt 7); ("user_input", VStr "hi");
        ("bot_response", VStr "echo: hi"); ("timestamp", VDatetime 1) ] ] /\
  forall d,
    In d (appended chat_history_collection Sample.empty_world
                   (exec (web_search Sample.env "rocq" 7) Sample.empty_world)) ->
    attribute_kinds d = [TInt; TStr; TStr; TDatetime].
Proof.
  split; [reflexivity|]. split; [reflexivity|].
  intros d Hin.
  destruct (conversation_record_attributes
              Sample.env {| message := Sample.text_message |} Sample.no_args
              "rocq" 7 Sample.empty_world Sample.empty_world "hi" eq_refl)
    as [_ [Hweb _]].
  destruct (Hweb d Hin) as (output & t & _ & _ & Hkinds).
  exact Hkinds.
Defined.

(** Which steps make the part of [handle_file] under its [try] raise:
    the call to the vision model, reading the text of its answer, the
    insert of the metadata, or the reply with the description. *)
Lemma analyse_and_store_raises
      (env : Env) (fid : string) (fname : PyVal) (prompt : string)
      (img : Image) (w : World) (e : PyExn) :
  outcome (analyse_and_store env fid fname prompt img) w = Raise e <->
  generate_content_answer env (clock w) GEMINI_FLASH prompt img = Raise e \/
  exists r,
    generate_content_answer env (clock w) GEMINI_FLASH prompt img = Ok r /\
    ((text_part r = None /\
      e = Exception "response.text requires a valid Part") \/
     (exists description,
         text_part r = Some description /\
         (mongo_fault env (S (clock w)) = Some e \/
          (mongo_fault env (S (clock w)) = None /\
           telegram_fault env (S (S (clock w))) = Some e)))).
Proof.
  unfold analyse_and_store, response_text, GEMINI_FLASH. step.
  destruct (generate_content_answer env (clock w) _ prompt img) as [r|e0];
    cbn.
  - destruct (text_part r) as [description|] eqn:Htext; cbn.
    + rewrite clock_emit.
      destruct (mongo_fault env (S (clock w))) as [e1|] eqn:Hdb; cbn.
      * split.
        -- intros H. right. exists r. split; [reflexivity|]. right.
           exists description. split; [exact Htext|]. left. congruence.
        -- intros [H | (r' & Hr & [[H _] | (d' & _ & [H | [H _]])])];
             congruence.
      * rewrite clock_set_coll, !clock_emit.
        destruct (telegram_fault env (S (S (clock w)))) as [e2|] eqn:Htg; cbn.
        -- split.
           ++ intros H. right. exists r. split; [reflexivity|]. right.
              exists description. split; [exact Htext|]. right.
              split; congruence.
           ++ intros [H | (r' & Hr & [[H _] | (d' & _ & [H | [_ H]])])];
                congruence.
        -- split; [discriminate|].
           intros [H | (r' & Hr & [[H _] | (d' & _ & [H | [_ H]])])];
             congruence.
    + split.
      * intros H. right. exists r. split; [reflexivity|]. left.
        split; [exact Htext | congruence].
      * intros [H | (r' & Hr & [[_ H] | (d' & H & _)])]; congruence.
  - split.
    + intros H. left. congruence.
    + intros [H | (r' & Hr & _)]; congruence.
Qed.

(** C10. In [handle_file] the file is fetched, downloaded and opened as
    an image before the [try] begins.  For a photo event (one that
    carries an attachment): when one of these three steps raises, the
    exception leaves the handler as it is, no reply at all is sent, in
    particular no apology, nothing is logged and every collection is as
    before.  When the three steps succeed, the apology is sent exactly
    when the part under the [try] (the call to the vision model, reading
    its text, storing the metadata, sending the description) raises. *)
Theorem handle_file_apology_scope
        (env : Env) (update : Update) (context : Context) (w : World)
        (file : Attachment) :
  outcome (document_or_last_photo (message update)) w = Ok file ->
  let w' := exec (handle_file env update context) w in
  match outcome (fetch_and_decode env (file_id file)) w with
  | Raise e =>
      outcome (handle_file env update context) w = Raise e /\
      replies_in (emitted w w') = [] /\
      emitted w w' = emitted w (exec (fetch_and_decode env (file_id file)) w) /\
      same_store w w'
  | Ok file_data =>
      In FILE_APOLOGY (replies_in (emitted w w')) <->
      exists e,
        outcome (analyse_and_store env (file_id file) (file_name_of file)
                                   VISION_PROMPT file_data)
                (exec (fetch_and_decode env (file_id file)) w) = Raise e
  end.
Proof.
  unfold handle_file, fetch_and_decode, analyse_and_store,
    document_or_last_photo, response_text, file_name_of, VISION_PROMPT,
    FILE_APOLOGY.
  step. intros Hfile.
  assert (Hpick :
            match document (message update) with
            | Some d => Ok (OfDocument d)
            | None => match last_item (photo (message update)) with
                      | Some p => Ok (OfPhoto p)
                      | None => Raise (Exception "tuple index out of range")
                      end
            end = Ok file).
  { destruct (document (message update));
      [|destruct (last_item (photo (message update)))]; exact Hfile. }
  clear Hfile.
  destruct (document (message update)) as [d|];
    [|destruct (last_item (photo (message update))) as [p|]];
    inversion Hpick; subst file; clear Hpick; cbn.
  all: destruct (get_file_answer env (clock w) _) as [info|e1]; cbn;
    [|settle].
  all: destruct (download_answer env _ info) as [bytes|e2]; cbn; [|settle].
  all: destruct (image_open env bytes) as [img|e3]; cbn; [|settle].
  all: answers.
  all: emitted_is; cbn.
  all: split;
    [ intros H; try (eexists; reflexivity);
      repeat (destruct H as [H|H]; try discriminate H); try contradiction
    | intros [? H]; try discriminate H; auto ].
Qed.

Lemma handle_file_apology_scope_witness :
  outcome (document_or_last_photo (message {| message := Sample.photo_message |}))
          Sample.empty_world
  = Ok (OfPhoto {| photo_file_id := "large" |}) /\
  let w' := exec (handle_file Sample.env_no_file
                    {| message := Sample.photo_message |} Sample.no_args)
                 Sample.empty_world in
  outcome (handle_file Sample.env_no_file
             {| message := Sample.photo_message |} Sample.no_args)
          Sample.empty_world = Raise (Exception "file is too big") /\
  replies_in (emitted Sample.empty_world w') = [] /\
  same_store Sample.empty_world w'.
Proof.
  split; [reflexivity|].
  pose proof (handle_file_apology_scope
                Sample.env_no_file {| message := Sample.photo_message |}
                Sample.no_args Sample.empty_world
                (OfPhoto {| photo_file_id := "large" |}) eq_refl) as H.
  cbv zeta in H.
  change (outcome (fetch_and_decode Sample.env_no_file
                     (file_id (OfPhoto {| photo_file_id := "large" |})))
                  Sample.empty_world)
    with (@Raise Image (Exception "file is too big")) in H.
  cbv iota beta in H.
  destruct H as (Hout & Hrep & _ & Hsame).
  cbv zeta. split; [exact Hout|]. split; [exact Hrep | exact Hsame].
Defined.

(* ------------------------------------------------------------------ *)
(** ** Further properties of the handlers *)

Ltac ticks := repeat first [rewrite clock_set_coll | rewrite clock_emit].

(** *** [gemini_query] *)

(** X1. When the model answers with a text, the store takes the write and
    the transport takes the reply, [gemini_query] stores exactly one
    conversation record, built from the chat identifier, the message
    text, the answer and the time read after the answer came, and only
    then sends the answer; it returns normally. *)
Theorem gemini_query_stores_then_replies
        (env : Env) (update : Update) (context : Context) (w : World)
        (r : GenerateContentResponse) (answer : string) :
  send_message_answer env (clock w) GEMINI_PRO_CHAT (text (message update))
  = Ok r ->
  text_part r = Some answer ->
  mongo_fault env (S (clock w)) = None ->
  telegram_fault env (S (S (clock w))) = None ->
  let record :=
    [ ("chat_id", VInt (chat_id (message update)));
      ("user_input", py_val_opt (text (message update)));
      ("bot_response", VStr answer);
      ("timestamp", VDatetime (datetime_now env (S (clock w)))) ] in
  let w' := exec (gemini_query env update context) w in
  outcome (gemini_query env update context) w = Ok tt /\
  emitted w w' =
    [ SendMessage GEMINI_PRO_CHAT (text (message update));
      DbInsertOne chat_history_collection record;
      ReplyText answer None ] /\
  db w' chat_history_collection = db w chat_history_collection ++ [record] /\
  db w' collection = db w collection /\
  db w' file_metadata_collection = db w file_metadata_collection.
Proof.
  intros Hans Htext Hdb Htg.
  unfold gemini_query, send_message_text, response_text, GEMINI_PRO_CHAT in *.
  step. rewrite Hans. cbn. rewrite Htext. cbn.
  ticks. rewrite Hdb. cbn. ticks. rewrite Htg. cbn.
  settle.
Qed.

Lemma gemini_query_stores_then_replies_witness :
  let update := {| message := Sample.text_message |} in
  let w' := exec (gemini_query Sample.env update Sample.no_args)
                 Sample.empty_world in
  outcome (gemini_query Sample.env update Sample.no_args) Sample.empty_world
  = Ok tt /\
  db w' chat_history_collection
  = [ [ ("chat_id", VInt 7); ("user_input", VStr "hi");
        ("bot_response", VStr "echo: hi"); ("timestamp", VDatetime 1) ] ].
Proof.
  cbv zeta.
  destruct (gemini_query_stores_then_replies
              Sample.env {| message := Sample.text_message |} Sample.no_args
              Sample.empty_world {| text_part := Some "echo: hi" |} "echo: hi"
              eq_refl eq_refl eq_refl eq_refl) as (Hout & _ & Hdb & _).
  split; [exact Hout | exact Hdb].
Defined.

(** X2. When the model answers but the store refuses the insert,
    [gemini_query] catches the store's exception: it logs it, sends the
    apology instead of the answer, which the user never sees, and no
    collection changes. *)
Theorem gemini_query_store_refuses
        (env : Env) (update : Update) (context : Context) (w : World)
        (r : GenerateContentResponse) (answer : string) (e : PyExn) :
  send_message_answer env (clock w) GEMINI_PRO_CHAT (text (message update))
  = Ok r ->
  text_part r = Some answer ->
  mongo_fault env (S (clock w)) = Some e ->
  let w' := exec (gemini_query env update context) w in
  replies_in (emitted w w') = [GEMINI_APOLOGY] /\
  In (LogRecord ERROR ("Error with Gemini API: " ++ exn_str e)%string)
     (emitted w w') /\
  same_store w w'.
Proof.
  intros Hans Htext Hdb.
  unfold gemini_query, send_message_text, response_text, GEMINI_PRO_CHAT in *.
  step. rewrite Hans. cbn. rewrite Htext. cbn.
  ticks. rewrite Hdb. cbn.
  match goal with
  | |- context [telegram_fault env (clock ?x)] =>
      destruct (telegram_fault env (clock x))
  end; cbn; settle; cbn; auto.
Qed.

Lemma gemini_query_store_refuses_witness :
  let env := Faults.with_mongo_fault (Faults.always Faults.store_down)
                                     Sample.env in
  let update := {| message := Sample.text_message |} in
  let w' := exec (gemini_query env update Sample.no_args) Sample.empty_world in
  mongo_fault env (S (clock Sample.empty_world)) = Some Faults.store_down /\
  replies_in (emitted Sample.empty_world w') = [GEMINI_APOLOGY] /\
  same_store Sample.empty_world w'.
Proof.
  cbv zeta. split; [reflexivity|].
  destruct (gemini_query_store_refuses
              (Faults.with_mongo_fault (Faults.always Faults.store_down)
                                       Sample.env)
              {| message := Sample.text_message |} Sample.no_args
              Sample.empty_world {| text_part := Some "echo: hi" |} "echo: hi"
              Faults.store_down eq_refl eq_refl eq_refl) as (Hr & _ & Hs).
  split; [exact Hr | exact Hs].
Defined.

Lemma gemini_query_reply_refused_witness :
  let env := Faults.with_telegram_fault (Faults.only_at 2 Faults.too_long)
                                        Sample.env in
  let update := {| message := Sample.text_message |} in
  let w' := exec (gemini_query env update Sample.no_args) Sample.empty_world in
  telegram_fault env (S (S (clock Sample.empty_world)))
  = Some Faults.too_long /\
  replies_in (emitted Sample.empty_world w') = ["echo: hi"; GEMINI_APOLOGY] /\
  List.length (appended chat_history_collection Sample.empty_world w') = 1%nat.
Proof.
  cbv zeta. split; [reflexivity|].
  apply (gemini_query_reply_refused
           (Faults.with_telegram_fault (Faults.only_at 2 Faults.too_long)
                                       Sample.env)
           {| message := Sample.text_message |} Sample.no_args
           Sample.empty_world {| text_part := Some "echo: hi" |} "echo: hi"
           Faults.too_long eq_refl eq_refl eq_refl eq_refl).
Defined.



(** *** [handle_file] *)

Lemma last_item_app {A : Type} (l : list A) (x : A) :
  last_item (l ++ [x]) = Some x.
Proof.
  induction l as [|y l IH]; cbn; [reflexivity|].
  rewrite IH. destruct (l ++ [x]) eqn:Happ; [|reflexivity].
  destruct l; discriminate.
Qed.

(** X5. Which file [handle_file] asks Telegram for: the document when the
    message carries one, whatever photos come with it; otherwise the last
    entry of the photo list.  The request for that file is the first
    outside call of the handler. *)
Theorem handle_file_picks_attachment
        (env : Env) (update : Update) (context : Context) (w : World) :
  let w' := exec (handle_file env update context) w in
  (forall d,
      document (message update) = Some d ->
      exists rest, emitted w w' = GetFile (document_file_id d) :: rest) /\
  (forall sizes largest,
      document (message update) = None ->
      photo (message update) = sizes ++ [largest] ->
      exists rest, emitted w w' = GetFile (photo_file_id largest) :: rest).
Proof.
  split.
  - intros d Hd. unfold handle_file, document_or_last_photo, analyse_and_store,
      response_text.
    rewrite Hd. step. answers; emitted_is; eexists; reflexivity.
  - intros sizes largest Hd Hp.
    unfold handle_file, document_or_last_photo, analyse_and_store,
      response_text.
    rewrite Hd, Hp, last_item_app. step.
    answers; emitted_is; eexists; reflexivity.
Qed.

Lemma handle_file_picks_attachment_witness :
  (exists rest,
      emitted Sample.empty_world
              (exec (handle_file Sample.env
                       {| message := Faults.document_message |} Sample.no_args)
                    Sample.empty_world) = GetFile "doc1" :: rest) /\
  (exists rest,
      emitted Sample.empty_world
              (exec (handle_file Sample.env
                       {| message := Sample.photo_message |} Sample.no_args)
                    Sample.empty_world) = GetFile "large" :: rest).
Proof.
  split.
  - apply (proj1 (handle_file_picks_attachment
                    Sample.env {| message := Faults.document_message |}
                    Sample.no_args Sample.empty_world)
                 {| document_file_id := "doc1";
                    document_file_name := Some "scan.png" |} eq_refl).
  - apply (proj2 (handle_file_picks_attachment
                    Sample.env {| message := Sample.photo_message |}
                    Sample.no_args Sample.empty_world)
                 [ {| photo_file_id := "small" |} ]
                 {| photo_file_id := "large" |} eq_refl eq_refl).
Defined.

(** X6. A message with neither a document nor a photo makes [handle_file]
    raise on the index into the empty photo list, before any outside
    call: nothing is requested, sent, logged or stored. *)
Theorem handle_file_without_attachment
        (env : Env) (update : Update) (context : Context) (w : World) :
  document (message update) = None ->
  photo (message update) = [] ->
  let w' := exec (handle_file env update context) w in
  (exists e, outcome (handle_file env update context) w = Raise e) /\
  trace w' = trace w /\
  same_store w w'.
Proof.
  intros Hd Hp. unfold handle_file, document_or_last_photo.
  rewrite Hd, Hp. step. cbn.
  split; [eexists; reflexivity|]. split; [reflexivity|].
  intros c; reflexivity.
Qed.

Lemma handle_file_without_attachment_witness :
  let update := {| message := Faults.bare_message |} in
  (exists e, outcome (handle_file Sample.env update Sample.no_args)
                     Sample.empty_world = Raise e) /\
  trace (exec (handle_file Sample.env update Sample.no_args)
              Sample.empty_world) = [].
Proof.
  cbv zeta.
  destruct (handle_file_without_attachment
              Sample.env {| message := Faults.bare_message |} Sample.no_args
              Sample.empty_world eq_refl eq_refl) as (He & Ht & _).
  split; [exact He | exact Ht].
Defined.

(** X7. When the file is fetched and opened, the vision model answers with a
    description, the store takes the write and the transport the reply,
    [handle_file] stores exactly one metadata record -- the file
    identifier, the file name (the document's own name, or
    [image_<identifier>.jpg] for a photo), the description and the time
    -- and then sends the description under its fixed header.  The users
    and the conversation log are not touched. *)
Theorem handle_file_stores_then_replies
        (env : Env) (update : Update) (context : Context) (w : World)
        (file : Attachment) (info : File) (bytes : list byte) (img : Image)
        (r : GenerateContentResponse) (description : string) :
  outcome (document_or_last_photo (message update)) w = Ok file ->
  get_file_answer env (clock w) (file_id file) = Ok info ->
  download_answer env (S (clock w)) info = Ok bytes ->
  image_open env bytes = Ok img ->
  generate_content_answer env (S (S (clock w))) GEMINI_FLASH VISION_PROMPT img
  = Ok r ->
  text_part r = Some description ->
  mongo_fault env (S (S (S (clock w)))) = None ->
  telegram_fault env (S (S (S (S (clock w))))) = None ->
  let record :=
    [ ("file_id", VStr (file_id file));
      ("file_name", file_name_of file);
      ("description", VStr description);
      ("timestamp", VDatetime (datetime_now env (S (S (S (clock w)))))) ] in
  let w' := exec (handle_file env update context) w in
  outcome (handle_file env update context) w = Ok tt /\
  db w' file_metadata_collection = db w file_metadata_collection ++ [record] /\
  db w' collection = db w collection /\
  db w' chat_history_collection = db w chat_history_collection /\
  writes_in (emitted w w') = [DbInsertOne file_metadata_collection record] /\
  replies_in (emitted w w') =
    [ ("Here is what I found in the image:" ++ LF ++ LF ++ description)%string ].
Proof.
  intros Hfile Hget Hdl Hopen Hgen Htext Hdb Htg.
  unfold handle_file, analyse_and_store, response_text, file_name_of,
    GEMINI_FLASH, VISION_PROMPT in *.
  unfold outcome in Hfile. step.
  destruct (document_or_last_photo (message update) w) as [[f|e0] w0] eqn:Hpick;
    cbn in Hfile; [|discriminate].
  inversion Hfile; subst f; clear Hfile.
  assert (Hw0 : w0 = w).
  { unfold document_or_last_photo, ret, raise in Hpick.
    destruct (document (message update));
      [|destruct (last_item (photo (message update)))];
      inversion Hpick; reflexivity. }
  subst w0.
  rewrite Hget. cbn. ticks. rewrite Hdl. cbn. rewrite Hopen. cbn.
  ticks. rewrite Hgen. cbn. rewrite Htext. cbn.
  ticks. rewrite Hdb. cbn. ticks. rewrite Htg. cbn.
  destruct file; settle.
Qed.

Lemma handle_file_stores_then_replies_witness :
  let update := {| message := Sample.photo_message |} in
  let w' := exec (handle_file Sample.env update Sample.no_args)
                 Sample.empty_world in
  outcome (handle_file Sample.env update Sample.no_args) Sample.empty_world
  = Ok tt /\
  db w' file_metadata_collection
  = [ [ ("file_id", VStr "large"); ("file_name", VStr "image_large.jpg");
        ("description", VStr "a cat"); ("timestamp", VDatetime 3) ] ].
Proof.
  cbv zeta.
  destruct (handle_file_stores_then_replies
              Sample.env {| message := Sample.photo_message |} Sample.no_args
              Sample.empty_world (OfPhoto {| photo_file_id := "large" |})
              {| file_path := Some "large" |} [] (ImageOf [])
              {| text_part := Some "a cat" |} "a cat"
              eq_refl eq_refl eq_refl eq_refl eq_refl eq_refl eq_refl eq_refl)
    as (Hout & Hdb & _).
  split; [exact Hout | exact Hdb].
Defined.

(** X8. When the vision model fails on an opened image (its call raises, or
    its answer holds no text), [handle_file] stores no metadata, logs
    the error and its only reply is the apology. *)
Theorem handle_file_vision_fails
        (env : Env) (update : Update) (context : Context) (w : World)
        (file : Attachment) (info : File) (bytes : list byte) (img : Image) :
  outcome (document_or_last_photo (message update)) w = Ok file ->
  get_file_answer env (clock w) (file_id file) = Ok info ->
  download_answer env (S (clock w)) info = Ok bytes ->
  image_open env bytes = Ok img ->
  (forall description,
      generate_content_answer env (S (S (clock w))) GEMINI_FLASH VISION_PROMPT
                              img
      <> Ok {| text_part := Some description |}) ->
  let w' := exec (handle_file env update context) w in
  same_store w w' /\
  writes_in (emitted w w') = [] /\
  replies_in (emitted w w') = [FILE_APOLOGY] /\
  exists msg, In (LogRecord ERROR msg) (emitted w w').
Proof.
  intros Hfile Hget Hdl Hopen Hgen.
  unfold handle_file, analyse_and_store, response_text, file_name_of,
    GEMINI_FLASH, VISION_PROMPT in *.
  unfold outcome in Hfile. step.
  destruct (document_or_last_photo (message update) w) as [[f|e0] w0] eqn:Hpick;
    cbn in Hfile; [|discriminate].
  inversion Hfile; subst f; clear Hfile.
  assert (Hw0 : w0 = w).
  { unfold document_or_last_photo, ret, raise in Hpick.
    destruct (document (message update));
      [|destruct (last_item (photo (message update)))];
      inversion Hpick; reflexivity. }
  subst w0.
  rewrite Hget. cbn. ticks. rewrite Hdl. cbn. rewrite Hopen. cbn. ticks.
  destruct (generate_content_answer env (S (S (clock w))) _ _ img)
    as [[[description|]]|e1] eqn:Hans; cbn.
  - exfalso. apply (Hgen description). reflexivity.
  - match goal with
    | |- context [telegram_fault env (clock ?x)] =>
        destruct (telegram_fault env (clock x))
    end; cbn; settle; try emitted_is; eexists; cbn;
      repeat (first [left; reflexivity | right]).
  - match goal with
    | |- context [telegram_fault env (clock ?x)] =>
        destruct (telegram_fault env (clock x))
    end; cbn; settle; try emitted_is; eexists; cbn;
      repeat (first [left; reflexivity | right]).
Qed.

Lemma handle_file_vision_fails_witness :
  let update := {| message := Sample.photo_message |} in
  let w' := exec (handle_file Sample.env_ai_down update Sample.no_args)
                 Sample.empty_world in
  same_store Sample.empty_world w' /\
  replies_in (emitted Sample.empty_world w') = [FILE_APOLOGY].
Proof.
  cbv zeta.
  destruct (handle_file_vision_fails
              Sample.env_ai_down {| message := Sample.photo_message |}
              Sample.no_args Sample.empty_world
              (OfPhoto {| photo_file_id := "large" |})
              {| file_path := Some "large" |} [] (ImageOf [])
              eq_refl eq_refl eq_refl eq_refl
              ltac:(intros description; cbn; discriminate))
    as (Hs & _ & Hr & _).
  split; [exact Hs | exact Hr].
Defined.

(** *** [start] and [handle_contact] *)

Lemma doc_get_set_same (k : string) (v : PyVal) (d : Doc) :
  doc_get k (doc_set k v d) = Some v.
Proof.
  induction d as [|[k' v'] d IH]; cbn.
  - now rewrite String.eqb_refl.
  - destruct (String.eqb k k') eqn:Hk; cbn; rewrite Hk; auto.
Qed.

Lemma doc_get_set_other (k k' : string) (v : PyVal) (d : Doc) :
  k <> k' -> doc_get k (doc_set k' v d) = doc_get k d.
Proof.
  intros Hne. induction d as [|[k0 v0] d IH]; cbn.
  - destruct (String.eqb_spec k k'); [contradiction | reflexivity].
  - destruct (String.eqb_spec k' k0) as [->|Hk0]; cbn.
    + destruct (String.eqb_spec k k0); [contradiction | reflexivity].
    + destruct (String.eqb k k0); auto.
Qed.

(** Setting the phone number does not move a document to another chat
    identifier. *)
Lemma set_phone_keeps_chat_id (uid : Z) (v : PyVal) (d : Doc) :
  doc_matches (by_chat_id uid) (doc_apply_set [("phone_number", v)] d)
  = doc_matches (by_chat_id uid) d.
Proof.
  unfold doc_matches, by_chat_id, doc_apply_set. cbn.
  rewrite doc_get_set_other by discriminate. reflexivity.
Qed.

Lemma update_first_length {A : Type} (p : A -> bool) (f : A -> A)
      (l : list A) :
  List.length (update_first p f l) = List.length l.
Proof.
  induction l as [|x l IH]; cbn; [reflexivity|].
  destruct (p x); cbn; auto.
Qed.

Lemma find_update_first {A : Type} (p : A -> bool) (f : A -> A)
      (l : list A) (x : A) :
  find p l = Some x -> p (f x) = true ->
  find p (update_first p f l) = Some (f x).
Proof.
  intros Hfind Hp. induction l as [|y l IH]; cbn in *; [discriminate|].
  destruct (p y) eqn:Hy.
  - inversion Hfind; subst y. cbn. now rewrite Hp.
  - cbn. rewrite Hy. auto.
Qed.

Lemma filter_update_first_length {A : Type} (p q : A -> bool) (f : A -> A)
      (l : list A) :
  (forall x, q (f x) = q x) ->
  List.length (filter q (update_first p f l)) = List.length (filter q l).
Proof.
  intros Hq. induction l as [|x l IH]; cbn; [reflexivity|].
  destruct (p x); cbn.
  - rewrite Hq. destruct (q x); reflexivity.
  - destruct (q x); cbn; auto.
Qed.

Lemma map_update_first {A B : Type} (p : A -> bool) (f : A -> A)
      (g : A -> B) (l : list A) :
  (forall x, g (f x) = g x) ->
  map g (update_first p f l) = map g l.
Proof.
  intros Hg. induction l as [|x l IH]; cbn; [reflexivity|].
  destruct (p x); cbn; [now rewrite Hg | now rewrite IH].
Qed.

Lemma find_app_none {A : Type} (p : A -> bool) (l l' : list A) :
  find p l = None -> find p (l ++ l') = find p l'.
Proof.
  induction l as [|x l IH]; cbn; [reflexivity|].
  destruct (p x); [discriminate | exact IH].
Qed.

Lemma update_first_app_none {A : Type} (p : A -> bool) (f : A -> A)
      (l l' : list A) :
  find p l = None ->
  update_first p f (l ++ l') = l ++ update_first p f l'.
Proof.
  induction l as [|x l IH]; cbn; [reflexivity|].
  destruct (p x); [discriminate|]. intros H. now rewrite IH.
Qed.

(** X9. [/start] from a chat identifier that already has a record, while the
    store answers the lookup: nothing is written, the stored name is not
    refreshed, and the contact-request prompt is sent all the same. *)
Theorem start_known_user
        (env : Env) (update : Update) (context : Context) (w : World) :
  let user := from_user (message update) in
  records_for (id user) (db w collection) <> [] ->
  mongo_fault env (clock w) = None ->
  let w' := exec (start env update context) w in
  same_store w w' /\
  emitted w w' =
    [ DbFindOne collection (by_chat_id (id user));
      ReplyText
        "Welcome to the User Registration Bot! Please share your phone number to continue."
        (Some (ReplyKeyboardMarkup
                 [[ {| button_text := "Share my phone number";
                       request_contact := true |} ]] true true)) ] /\
  writes_in (emitted w w') = [].
Proof.
  intros user Hknown Hdb. unfold start, register_user. step. fold user.
  rewrite Hdb.
  destruct (find (doc_matches [("chat_id", VInt (id user))]) (db w collection))
    as [d|] eqn:Hfind.
  - rewrite (found_by_chat_id_truthy (id user) _ d Hfind). cbn.
    destruct (telegram_fault env _); cbn; settle.
  - apply find_none_filter in Hfind. contradiction.
Qed.

Lemma start_known_user_witness :
  let update := {| message := Sample.text_message |} in
  let w' := exec (start Sample.env update Sample.no_args)
                 Faults.world_with_ann in
  records_for 7 (db Faults.world_with_ann collection) <> [] /\
  same_store Faults.world_with_ann w' /\
  writes_in (emitted Faults.world_with_ann w') = [].
Proof.
  cbv zeta. split; [cbn; discriminate|].
  destruct (start_known_user
              Sample.env {| message := Sample.text_message |} Sample.no_args
              Faults.world_with_ann ltac:(cbn; discriminate) eq_refl)
    as (Hs & _ & Hw).
  split; [exact Hs | exact Hw].
Defined.

(** X10. [register_user] runs outside any [try]: when it raises (the store
    refuses the lookup or the insert), the exception leaves [start], no
    prompt is sent and no collection changes. *)
Theorem start_register_fails
        (env : Env) (update : Update) (context : Context) (w : World)
        (e : PyExn) :
  let user := from_user (message update) in
  outcome (register_user env (id user) (first_name user) (username user)) w
  = Raise e ->
  let w' := exec (start env update context) w in
  outcome (start env update context) w = Raise e /\
  replies_in (emitted w w') = [] /\
  same_store w w'.
Proof.
  intros user. unfold start, register_user. step. fold user.
  destruct (mongo_fault env (clock w)) as [e0|]; cbn.
  - intros H; inversion H; subst. settle.
  - destruct (find _ (db w collection)) as [[|kv d]|]; cbn; try discriminate.
    + ticks. destruct (mongo_fault env (S (clock w))); cbn; [|discriminate].
      intros H; inversion H; subst. settle.
    + ticks. destruct (mongo_fault env (S (clock w))); cbn; [|discriminate].
      intros H; inversion H; subst. settle.
Qed.

Lemma start_register_fails_witness :
  let env := Faults.with_mongo_fault (Faults.always Faults.store_down)
                                     Sample.env in
  let update := {| message := Sample.text_message |} in
  outcome (register_user env 7 "Ann" (Some "ann7")) Sample.empty_world
  = Raise Faults.store_down /\
  outcome (start env update Sample.no_args) Sample.empty_world
  = Raise Faults.store_down /\
  replies_in (emitted Sample.empty_world
                      (exec (start env update Sample.no_args)
                            Sample.empty_world)) = [].
Proof.
  cbv zeta. split; [reflexivity|].
  destruct (start_register_fails
              (Faults.with_mongo_fault (Faults.always Faults.store_down)
                                       Sample.env)
              {| message := Sample.text_message |} Sample.no_args
              Sample.empty_world Faults.store_down eq_refl) as (Ho & Hr & _).
  split; [exact Ho | exact Hr].
Defined.

(** X11. A shared contact of a chat identifier that has a record, while the
    store answers: afterwards the lookup of that identifier gives the
    same record with the shared number under [phone_number] and every
    other field as it was; no record is added or removed, the other
    collections are as before. *)
Theorem handle_contact_sets_phone
        (env : Env) (update : Update) (context : Context) (w : World)
        (c : Contact) (d : Doc) :
  let uid := id (from_user (message update)) in
  contact (message update) = Some c ->
  find (doc_matches (by_chat_id uid)) (db w collection) = Some d ->
  mongo_fault env (clock w) = None ->
  let w' := exec (handle_contact env update context) w in
  (exists d',
      find (doc_matches (by_chat_id uid)) (db w' collection) = Some d' /\
      doc_get "phone_number" d' = Some (VStr (phone_number c)) /\
      forall k, k <> "phone_number" -> doc_get k d' = doc_get k d) /\
  List.length (db w' collection) = List.length (db w collection) /\
  db w' chat_history_collection = db w chat_history_collection /\
  db w' file_metadata_collection = db w file_metadata_collection.
Proof.
  intros uid Hc Hfind Hdb.
  unfold handle_contact, getattr_of. rewrite Hc. step. fold uid.
  unfold by_chat_id in *. rewrite Hdb, Hfind. cbn.
  set (fields := [("phone_number", VStr (phone_number c))]).
  assert (Hkeep : doc_matches [("chat_id", VInt uid)] (doc_apply_set fields d)
                  = true).
  { change [("chat_id", VInt uid)] with (by_chat_id uid).
    unfold fields. rewrite set_phone_keeps_chat_id.
    apply find_some in Hfind. apply Hfind. }
  destruct (telegram_fault env _); cbn.
  all: split;
    [ exists (doc_apply_set fields d); split;
      [ apply find_update_first; assumption
      | split;
        [ apply doc_get_set_same
        | intros k Hk; unfold fields, doc_apply_set; cbn;
          apply doc_get_set_other; exact Hk ] ]
    | split; [apply update_first_length | split; reflexivity] ].
Qed.

Lemma handle_contact_sets_phone_witness :
  let update := {| message := Sample.contact_message |} in
  let w' := exec (handle_contact Sample.env update Sample.no_args)
                 Faults.world_with_ann in
  find (doc_matches (by_chat_id 7)) (db Faults.world_with_ann collection)
  = Some Faults.ann_record /\
  exists d',
    find (doc_matches (by_chat_id 7)) (db w' collection) = Some d' /\
    doc_get "phone_number" d' = Some (VStr "+15550100").
Proof.
  cbv zeta. split; [reflexivity|].
  destruct (handle_contact_sets_phone
              Sample.env {| message := Sample.contact_message |}
              Sample.no_args Faults.world_with_ann
              {| phone_number := "+15550100" |} Faults.ann_record
              eq_refl eq_refl eq_refl) as ((d' & Hf & Hp & _) & _).
  exists d'. split; [exact Hf | exact Hp].
Defined.

(** X12. [handle_contact] confirms only after the update returned: when any
    reply was sent, the message carried a contact and the store had
    answered the update. *)
Theorem handle_contact_confirms_after_update
        (env : Env) (update : Update) (context : Context) (w : World) :
  let w' := exec (handle_contact env update context) w in
  replies_in (emitted w w') <> [] ->
  (exists c, contact (message update) = Some c) /\
  mongo_fault env (clock w) = None.
Proof.
  unfold handle_contact, getattr_of. step.
  destruct (contact (message update)) as [c|]; cbn.
  - destruct (mongo_fault env (clock w)) as [e|]; cbn.
    + intros H. exfalso. apply H. emitted_is. reflexivity.
    + intros _. split; [eexists|]; reflexivity.
  - intros H. exfalso. apply H. unfold emitted. rewrite skipn_all.
    reflexivity.
Qed.

Lemma handle_contact_confirms_after_update_witness :
  let update := {| message := Sample.contact_message |} in
  replies_in (emitted Sample.empty_world
                      (exec (handle_contact Sample.env update Sample.no_args)
                            Sample.empty_world)) <> [] /\
  mongo_fault Sample.env (clock Sample.empty_world) = None.
Proof.
  cbv zeta. split; [cbn; discriminate|].
  apply (handle_contact_confirms_after_update
           Sample.env {| message := Sample.contact_message |} Sample.no_args
           Sample.empty_world).
  cbn; discriminate.
Defined.

(** X13. [/start] from an unseen chat identifier followed by a shared contact
    of the same user, with a store that answers: the users end with one
    more record, holding the identifier, the first name, the username
    and the shared number. *)
Theorem start_then_contact
        (env : Env) (update1 update2 : Update) (context1 context2 : Context)
        (w : World) (c : Contact) :
  let user := from_user (message update1) in
  id (from_user (message update2)) = id user ->
  contact (message update2) = Some c ->
  records_for (id user) (db w collection) = [] ->
  (forall n, mongo_fault env n = None) ->
  let w1 := exec (start env update1 context1) w in
  let w2 := exec (handle_contact env update2 context2) w1 in
  db w2 collection =
    db w collection ++
    [ [ ("chat_id", VInt (id user));
        ("first_name", VStr (first_name user));
        ("username", py_val_opt (username user));
        ("phone_number", VStr (phone_number c)) ] ].
Proof.
  intros user Hid Hc Hnone Hdb.
  apply find_none_filter in Hnone. unfold by_chat_id in Hnone.
  unfold start, register_user, handle_contact, getattr_of.
  rewrite Hc, Hid. step. fold user.
  repeat (first [rewrite Hdb | rewrite Hnone]; cbn).
  destruct (telegram_fault env _); cbn.
  all: repeat (rewrite Hdb; cbn).
  all: rewrite find_app_none by exact Hnone; cbn; rewrite Z.eqb_refl; cbn.
  all: rewrite update_first_app_none by exact Hnone; cbn; rewrite Z.eqb_refl;
    cbn.
  all: destruct (telegram_fault env _); reflexivity.
Qed.

Lemma start_then_contact_witness :
  let w1 := exec (start Sample.env {| message := Sample.text_message |}
                        Sample.no_args) Sample.empty_world in
  let w2 := exec (handle_contact Sample.env
                    {| message := Sample.contact_message |} Sample.no_args)
                 w1 in
  records_for 7 (db Sample.empty_world collection) = [] /\
  db w2 collection =
    [ [ ("chat_id", VInt 7); ("first_name", VStr "Ann");
        ("username", VStr "ann7"); ("phone_number", VStr "+15550100") ] ].
Proof.
  cbv zeta. split; [reflexivity|].
  apply (start_then_contact
           Sample.env {| message := Sample.text_message |}
           {| message := Sample.contact_message |} Sample.no_args
           Sample.no_args Sample.empty_world {| phone_number := "+15550100" |}
           eq_refl eq_refl eq_refl (fun _ => eq_refl)).
Defined.

(** *** [web_search] and [websearch] *)

(** [web_search] first sends its one request; what follows holds no
    reply and no further request. *)
Lemma web_search_trace (env : Env) (query : string) (cid : Z) (w : World) :
  exists evs,
    trace (exec (web_search env query cid) w)
    = trace w ++ HttpGet SERP_URL (serp_params env query) :: evs /\
    replies_in evs = [] /\
    http_calls_in evs = [].
Proof.
  unfold web_search, SERP_URL, serp_params. step.
  answers; eexists; (split; [cbn; rewrite <- ?app_assoc; reflexivity|]);
    split; reflexivity.
Qed.

Lemma join_space_empty (xs : list string) :
  join " " xs = "" <-> xs = [] \/ xs = [""].
Proof.
  split.
  - destruct xs as [|x [|y rest]]; cbn.
    + auto.
    + intros ->. auto.
    + destruct x; cbn; discriminate.
  - intros [-> | ->]; reflexivity.
Qed.

(** X14. [websearch] makes no HTTP request when the arguments are missing or
    are a single empty string, and otherwise exactly one: a GET to the
    search address with the arguments joined by single spaces as [q] and
    the environment's [serp_api_key] ([None] when unset) as [api_key];
    there is no second attempt, whatever the answer. *)
Theorem websearch_http_calls
        (env : Env) (update : Update) (context : Context) (w : World) :
  let w' := exec (websearch env update context) w in
  (args context = [] \/ args context = [""] ->
   http_calls_in (emitted w w') = []) /\
  (args context <> [] -> args context <> [""] ->
   http_calls_in (emitted w w') =
     [ HttpGet "https://serpapi.com/search"
               [ ("q", VStr (join " " (args context)));
                 ("api_key", py_val_opt (environ env "serp_api_key")) ] ]).
Proof.
  split.
  - intros Hargs. apply join_space_empty in Hargs.
    unfold websearch. rewrite Hargs. cbn [String.eqb]. step.
    destruct (telegram_fault env (clock w)); cbn; emitted_is; reflexivity.
  - intros Hne1 Hne2.
    assert (Hj : join " " (args context) <> "").
    { intros Hj. apply join_space_empty in Hj. tauto. }
    unfold websearch. apply String.eqb_neq in Hj. rewrite Hj.
    unfold bind, exec.
    destruct (web_search_trace env (join " " (args context))
                               (chat_id (message update)) w)
      as (evs & Htrace & _ & Hhttp).
    unfold exec in Htrace.
    destruct (web_search env (join " " (args context))
                         (chat_id (message update)) w) as [[body|e] w1];
      cbn in *.
    + unfold reply_text. destruct (telegram_fault env (clock w1)); cbn;
        (erewrite emitted_app
          by (cbn [trace emit]; rewrite Htrace, <- app_assoc; reflexivity));
        cbn; unfold http_calls_in in *; rewrite filter_app, Hhttp;
        reflexivity.
    + erewrite emitted_app by exact Htrace. cbn.
      unfold http_calls_in in *. rewrite Hhttp. reflexivity.
Qed.

Lemma websearch_http_calls_witness :
  let context := {| args := ["rocq"; "prover"] |} in
  let w' := exec (websearch Sample.env {| message := Sample.text_message |}
                            context) Sample.empty_world in
  args context <> [] /\ args context <> [""] /\
  http_calls_in (emitted Sample.empty_world w') =
    [ HttpGet "https://serpapi.com/search"
              [ ("q", VStr "rocq prover"); ("api_key", VNone) ] ].
Proof.
  cbv zeta. split; [discriminate|]. split; [discriminate|].
  apply (proj2 (websearch_http_calls
                  Sample.env {| message := Sample.text_message |}
                  {| args := ["rocq"; "prover"] |} Sample.empty_world));
    discriminate.
Defined.

(** X15. With a query, [websearch] sends the user exactly what [web_search]
    returned, as its only reply and after everything [web_search] did;
    the store is as [web_search] left it. *)
Theorem websearch_relays_verbatim
        (env : Env) (update : Update) (context : Context) (w : World)
        (body : string) :
  let query := join " " (args context) in
  let cid := chat_id (message update) in
  query <> "" ->
  outcome (web_search env query cid) w = Ok body ->
  let w1 := exec (web_search env query cid) w in
  let w' := exec (websearch env update context) w in
  emitted w w' = emitted w w1 ++ [ReplyText body None] /\
  replies_in (emitted w w') = [body] /\
  same_store w1 w'.
Proof.
  intros query cid Hq Hout w1. subst w1.
  unfold websearch. fold query cid. apply String.eqb_neq in Hq. rewrite Hq.
  unfold bind, exec, outcome in *.
  destruct (web_search_trace env query cid w) as (evs & Htrace & Hrep & _).
  unfold exec in Htrace.
  destruct (web_search env query cid w) as [[b|e] w1]; cbn in *;
    [|discriminate].
  inversion Hout; subst b; clear Hout.
  unfold reply_text.
  destruct (telegram_fault env (clock w1)); cbn;
    (erewrite (emitted_app w (emit _ w1))
      by (cbn [trace emit]; rewrite Htrace, <- app_assoc; reflexivity));
    (erewrite (emitted_app w w1) by exact Htrace);
    (split; [rewrite <- ?app_assoc; reflexivity|]);
    (split; [|intros c; reflexivity]);
    unfold replies_in in *; cbn; rewrite flat_map_app, Hrep; reflexivity.
Qed.

Lemma websearch_relays_verbatim_witness :
  let context := {| args := ["rocq"] |} in
  let update := {| message := Sample.text_message |} in
  join " " (args context) <> "" /\
  exists body,
    outcome (web_search Sample.env "rocq" 7) Sample.empty_world = Ok body /\
    replies_in (emitted Sample.empty_world
                        (exec (websearch Sample.env update context)
                              Sample.empty_world)) = [body].
Proof.
  cbv zeta. split; [discriminate|].
  eexists. split; [reflexivity|].
  apply (websearch_relays_verbatim
           Sample.env {| message := Sample.text_message |}
           {| args := ["rocq"] |} Sample.empty_world _
           ltac:(discriminate) eq_refl).
Defined.

(** X16. [websearch] has no [try]: when [web_search] raises, the exception
    leaves the handler and the user gets no reply at all. *)
Theorem websearch_uncaught
        (env : Env) (update : Update) (context : Context) (w : World)
        (e : PyExn) :
  let query := join " " (args context) in
  query <> "" ->
  outcome (web_search env query (chat_id (message update))) w = Raise e ->
  let w' := exec (websearch env update context) w in
  outcome (websearch env update context) w = Raise e /\
  replies_in (emitted w w') = [].
Proof.
  intros query Hq Hout.
  unfold websearch. fold query. apply String.eqb_neq in Hq. rewrite Hq.
  unfold bind, exec, outcome in *.
  destruct (web_search_trace env query (chat_id (message update)) w)
    as (evs & Htrace & Hrep & _).
  unfold exec in Htrace.
  destruct (web_search env query (chat_id (message update)) w)
    as [[b|e0] w1]; cbn in *; [discriminate|].
  inversion Hout; subst e0. split; [reflexivity|].
  erewrite emitted_app by exact Htrace. cbn. exact Hrep.
Qed.



Lemma websearch_uncaught_witness :
  let env := Faults.with_mongo_fault (Faults.always Faults.store_down)
                                     Sample.env in
  let context := {| args := ["rocq"] |} in
  let update := {| message := Sample.text_message |} in
  outcome (websearch env update context) Sample.empty_world
  = Raise Faults.store_down /\
  replies_in (emitted Sample.empty_world
                      (exec (websearch env update context)
                            Sample.empty_world)) = [].
Proof.
  cbv zeta.
  apply (websearch_uncaught
           (Faults.with_mongo_fault (Faults.always Faults.store_down)
                                    Sample.env)
           {| message := Sample.text_message |} {| args := ["rocq"] |}
           Sample.empty_world Faults.store_down
           ltac:(discriminate) eq_refl).
Defined.

(** X18. A 200 answer whose JSON body has no [organic_results] key is served
    like an empty list: the no-results text, nothing stored. *)
Theorem web_search_missing_key
        (env : Env) (query : string) (cid : Z) (w : World) (resp : Response) :
  requests_get_answer env (clock w) SERP_URL (serp_params env query) = Ok resp ->
  status_code resp = 200%Z ->
  json resp = Ok None ->
  outcome (web_search env query cid) w
  = Ok "Sorry, I couldn't find relevant results for your query." /\
  same_store w (exec (web_search env query cid) w).
Proof.
  intros Hget Hstatus Hjson.
  unfold web_search. step.
  unfold SERP_URL, serp_params in *. rewrite Hget. cbn.
  rewrite Hstatus. cbn. rewrite Hjson. cbn.
  settle.
Qed.

Lemma web_search_missing_key_witness :
  let env := Sample.env_search 200 None in
  outcome (web_search env "rocq" 7) Sample.empty_world = Ok NO_RESULTS /\
  same_store Sample.empty_world
             (exec (web_search env "rocq" 7) Sample.empty_world).
Proof.
  cbv zeta.
  apply (web_search_missing_key
           (Sample.env_search 200 None) "rocq" 7 Sample.empty_world
           {| status_code := 200; json := Ok None |} eq_refl eq_refl eq_refl).
Defined.

(** X19. A first result that lacks both keys still gives a summary: the
    snippet is replaced by [No summary available] and the missing link
    is printed as [None]; that text is returned and stored.  The results
    after the first play no part. *)
Theorem web_search_missing_fields
        (env : Env) (query : string) (cid : Z) (w : World)
        (resp : Response) (top : OrganicResult) (rest : list OrganicResult) :
  requests_get_answer env (clock w) SERP_URL (serp_params env query) = Ok resp ->
  status_code resp = 200%Z ->
  json resp = Ok (Some (top :: rest)) ->
  snippet top = None ->
  link top = None ->
  mongo_fault env (S (clock w)) = None ->
  let summary :=
    ("Here is a summary for your query:" ++ LF ++ LF
     ++ "No summary available..." ++ LF ++ LF
     ++ "For more details, check the full article here: None")%string in
  outcome (web_search env query cid) w = Ok summary /\
  appended chat_history_collection w (exec (web_search env query cid) w)
  = [ [ ("chat_id", VInt cid);
        ("query", VStr query);
        ("summary", VStr summary);
        ("timestamp", VDatetime (datetime_now env (S (clock w)))) ] ].
Proof.
  intros Hget Hstatus Hjson Hsnip Hlink Hdb.
  unfold web_search. step.
  unfold SERP_URL, serp_params in *. rewrite Hget. cbn.
  rewrite Hstatus. cbn. rewrite Hjson. cbn.
  rewrite Hsnip, Hlink. cbn. ticks. rewrite Hdb. cbn.
  split; [reflexivity|].
  erewrite appended_app by (cbn; reflexivity). reflexivity.
Qed.

Lemma web_search_missing_fields_witness :
  let env := Sample.env_search 200
               (Some [ {| snippet := None; link := None |}; Sample.top ]) in
  exists summary,
    outcome (web_search env "rocq" 7) Sample.empty_world = Ok summary /\
    appended chat_history_collection Sample.empty_world
             (exec (web_search env "rocq" 7) Sample.empty_world)
    = [ [ ("chat_id", VInt 7); ("query", VStr "rocq");
          ("summary", VStr summary); ("timestamp", VDatetime 1) ] ].
Proof.
  cbv zeta. eexists.
  apply (web_search_missing_fields
           (Sample.env_search 200
              (Some [ {| snippet := None; link := None |}; Sample.top ]))
           "rocq" 7 Sample.empty_world
           {| status_code := 200;
              json := Ok (Some [ {| snippet := None; link := None |};
                                 Sample.top ]) |}
           {| snippet := None; link := None |} [Sample.top]
           eq_refl eq_refl eq_refl eq_refl eq_refl eq_refl).
Defined.

(** *** Whatever handler runs *)

Ltac handler_cases h :=
  destruct h;
  unfold run_handler, start, register_user, handle_contact, getattr_of,
    cancel, gemini_query, send_message_text, handle_file,
    document_or_last_photo, analyse_and_store, response_text, websearch,
    web_search;
  step; answers.

Lemma safety_settings_block_nothing : blocks_nothing SAFETY_SETTINGS.
Proof.
  intros category. exists BLOCK_NONE. split.
  - destruct category; cbn; auto 6.
  - intros threshold' H. cbn in H.
    repeat (destruct H as [H|H]; [inversion H; reflexivity|]).
    contradiction.
Qed.

(** What one handler run adds to the trace. *)
Lemma run_handler_trace (env : Env) (h : Handler) (update : Update)
      (context : Context) (w : World) :
  exists evs,
    trace (run_handler env h update context w) = trace w ++ evs /\
    Forall fresh_and_unfiltered evs /\
    (List.length (writes_in evs) <= 1)%nat.
Proof.
  handler_cases h.
  all: eexists; split;
    [ cbn [trace emit set_coll]; rewrite <- ?app_assoc;
      first [ reflexivity | symmetry; apply app_nil_r ] | ].
  all: split; [ | cbn; lia ].
  all: repeat constructor; cbn; auto using safety_settings_block_nothing.
Qed.


(** X21. One update makes a handler send the store at most one write (an
    insert or an update), whatever the outside parties answer. *)
Theorem one_write_per_update
        (env : Env) (h : Handler) (update : Update) (context : Context)
        (w : World) :
  (List.length
     (writes_in (emitted w (run_handler env h update context w))) <= 1)%nat.
Proof.
  destruct (run_handler_trace env h update context w) as (evs & Ht & _ & Hw).
  rewrite (emitted_app _ _ _ Ht). exact Hw.
Qed.

(** What one handler run does to the conversation log and to the file
    metadata: it leaves them or appends one record. *)
Lemma run_handler_logs (env : Env) (h : Handler) (update : Update)
      (context : Context) (w : World) (c : CollName) :
  c <> collection ->
  exists added,
    db (run_handler env h update context w) c = db w c ++ added /\
    (List.length added <= 1)%nat.
Proof.
  intros Hc. destruct c; try contradiction; handler_cases h.
  all: first [ exists []; split; [symmetry; apply app_nil_r | cbn; lia]
             | eexists [_]; split; [reflexivity | cbn; lia] ].
Qed.

(** X22. The conversation log and the file metadata are append-only: along
    any run of handlers on any updates, whatever fails, each of the two
    collections keeps every record it had, unchanged and in place, and
    only gains records at its end, at most one per update. *)
Theorem logs_append_only
        (env : Env) (runs : list (Handler * Update * Context)) (w : World)
        (c : CollName) :
  c <> collection ->
  exists added,
    db (run_updates env runs w) c = db w c ++ added /\
    (List.length added <= List.length runs)%nat.
Proof.
  intros Hc. revert w.
  induction runs as [|[[h update] context] runs IH]; intros w; cbn.
  - exists []. split; [symmetry; apply app_nil_r | cbn; lia].
  - destruct (run_handler_logs env h update context w c Hc)
      as (l1 & H1 & Hlen1).
    destruct (IH (run_handler env h update context w)) as (l2 & H2 & Hlen2).
    exists (l1 ++ l2). split.
    + rewrite H2, H1, app_assoc. reflexivity.
    + rewrite length_app. lia.
Qed.

Lemma logs_append_only_witness :
  let runs :=
    [ (H_gemini_query, {| message := Sample.text_message |}, Sample.no_args);
      (H_cancel, {| message := Sample.text_message |}, Sample.no_args);
      (H_websearch, {| message := Sample.text_message |},
       {| args := ["rocq"] |}) ] in
  chat_history_collection <> collection /\
  exists added,
    db (run_updates Sample.env runs Sample.empty_world) chat_history_collection
    = db Sample.empty_world chat_history_collection ++ added /\
    (List.length added <= 3)%nat.
Proof.
  cbv zeta. split; [discriminate|].
  apply (logs_append_only
           Sample.env
           [ (H_gemini_query, {| message := Sample.text_message |},
              Sample.no_args);
             (H_cancel, {| message := Sample.text_message |}, Sample.no_args);
             (H_websearch, {| message := Sample.text_message |},
              {| args := ["rocq"] |}) ]
           Sample.empty_world chat_history_collection).
  discriminate.
Defined.

(** What one handler run does to the users: nothing, or it appends the
    record of an identifier that had none, or it sets the phone number
    of the first record of an identifier. *)
Lemma run_handler_users (env : Env) (h : Handler) (update : Update)
      (context : Context) (w : World) :
  let w' := run_handler env h update context w in
  db w' collection = db w collection \/
  (exists uid fn un,
      records_for uid (db w collection) = [] /\
      db w' collection = db w collection ++ [user_record uid fn un]) \/
  (exists uid v,
      db w' collection =
      update_first (doc_matches (by_chat_id uid))
                   (doc_apply_set [("phone_number", v)]) (db w collection)).
Proof.
  destruct h; cbn [run_handler].
  - (* start *)
    assert (Hsame : db (exec (start env update context) w) collection
                    = db (exec (register_user
                                  env (id (from_user (message update)))
                                  (first_name (from_user (message update)))
                                  (username (from_user (message update)))) w)
                         collection).
    { unfold start, bind, exec.
      destruct (register_user env _ _ _ w) as [[[]|e] w1]; cbn;
        [|reflexivity].
      unfold reply_text. destruct (telegram_fault env (clock w1)); reflexivity. }
    cbv zeta. rewrite Hsame.
    destruct (register_user_grows
                env (id (from_user (message update)))
                (first_name (from_user (message update)))
                (username (from_user (message update))) w)
      as [_ [H | [Hnone Happ]]].
    + left. exact H.
    + right. left. eauto.
  - (* handle_contact *)
    unfold handle_contact, getattr_of. step. answers;
      first [ left; reflexivity
            | right; right; eexists; eexists; reflexivity ].
  - unfold cancel. step. answers; left; reflexivity.
  - unfold gemini_query, send_message_text, response_text. step.
    answers; left; reflexivity.
  - unfold handle_file, document_or_last_photo, analyse_and_store,
      response_text. step. answers; left; reflexivity.
  - unfold websearch, web_search. step. answers; left; reflexivity.
Qed.

(** X23. Along any run of handlers on any updates, the users keep at most one
    record per chat identifier: only [register_user] adds records, and
    it looks the identifier up first; setting a phone number never moves
    a record to another identifier. *)
Theorem users_stay_unique
        (env : Env) (runs : list (Handler * Update * Context)) (w : World) :
  at_most_one_per_chat_id (db w collection) ->
  at_most_one_per_chat_id (db (run_updates env runs w) collection).
Proof.
  revert w. induction runs as [|[[h update] context] runs IH];
    intros w Hinv; cbn; [exact Hinv|].
  apply IH.
  destruct (run_handler_users env h update context w)
    as [H | [(uid & fn & un & Hnone & H) | (uid & v & H)]];
    rewrite H; clear H.
  - exact Hinv.
  - intros uid'.
    rewrite records_for_app, records_for_user_record, length_app.
    destruct (Z.eqb_spec uid uid') as [->|Hne]; cbn.
    + rewrite Hnone. cbn. lia.
    + specialize (Hinv uid'). lia.
  - intros uid'. unfold records_for.
    rewrite filter_update_first_length.
    + apply Hinv.
    + intros d. apply set_phone_keeps_chat_id.
Qed.

Lemma users_stay_unique_witness :
  let runs :=
    [ (H_start, {| message := Sample.text_message |}, Sample.no_args);
      (H_handle_contact, {| message := Sample.contact_message |},
       Sample.no_args);
      (H_start, {| message := Sample.contact_message |}, Sample.no_args) ] in
  at_most_one_per_chat_id (db Sample.empty_world collection) /\
  at_most_one_per_chat_id
    (db (run_updates Sample.env runs Sample.empty_world) collection).
Proof.
  cbv zeta.
  assert (H0 : at_most_one_per_chat_id (db Sample.empty_world collection))
    by (intros uid; cbn; lia).
  split; [exact H0|].
  apply (users_stay_unique
           Sample.env
           [ (H_start, {| message := Sample.text_message |}, Sample.no_args);
             (H_handle_contact, {| message := Sample.contact_message |},
              Sample.no_args);
             (H_start, {| message := Sample.contact_message |},
              Sample.no_args) ]
           Sample.empty_world H0).
Defined.

(** X24. No handler removes a user or rewrites a profile: along any run of
    handlers, every field of every user record other than
    [phone_number] reads as before, record by record and in the same
    order; new records only come at the end.  In particular a later
    [/start] never refreshes the stored first name or username. *)
Theorem users_keep_their_fields
        (env : Env) (runs : list (Handler * Update * Context)) (w : World)
        (k : string) :
  k <> "phone_number" ->
  exists added,
    map (doc_get k) (db (run_updates env runs w) collection)
    = map (doc_get k) (db w collection) ++ added.
Proof.
  intros Hk. revert w.
  induction runs as [|[[h update] context] runs IH]; intros w; cbn.
  - exists []. symmetry. apply app_nil_r.
  - destruct (IH (run_handler env h update context w)) as (l2 & H2).
    rewrite H2. clear H2.
    destruct (run_handler_users env h update context w)
      as [H | [(uid & fn & un & _ & H) | (uid & v & H)]];
      rewrite H; clear H.
    + exists l2. reflexivity.
    + rewrite map_app, <- app_assoc. eexists. reflexivity.
    + rewrite map_update_first.
      * exists l2. reflexivity.
      * intros d. unfold doc_apply_set. cbn.
        apply doc_get_set_other. exact Hk.
Qed.

Lemma users_keep_their_fields_witness :
  let renamed : Message :=
    {| from_user := {| id := 7; first_name := "Anna"; username := None |};
       chat_id := 7; text := Some "/start";
       contact := None; document := None; photo := [] |} in
  let runs :=
    [ (H_start, {| message := renamed |}, Sample.no_args);
      (H_handle_contact, {| message := Sample.contact_message |},
       Sample.no_args) ] in
  "first_name" <> "phone_number" /\
  exists added,
    map (doc_get "first_name")
        (db (run_updates Sample.env runs Faults.world_with_ann) collection)
    = [Some (VStr "Ann")] ++ added.
Proof.
  cbv zeta. split; [discriminate|].
  apply (users_keep_their_fields
           Sample.env
           [ (H_start,
              {| message :=
                   {| from_user := {| id := 7; first_name := "Anna";
                                      username := None |};
                      chat_id := 7; text := Some "/start";
                      contact := None; document := None; photo := [] |} |},
              Sample.no_args);
             (H_handle_contact, {| message := Sample.contact_message |},
              Sample.no_args) ]
           Faults.world_with_ann "first_name").
  discriminate.
Defined.
